(** * The fossil_sys Conan recipe (conanfile.py)

    A shallow embedding of the recipe class [FossilSysConan] and of the
    lifecycle hooks it defines (layout, generate, build, source, package,
    package_info), together with the properties of the hooks.

    The recipe is a Python class.  Its hooks do two kinds of things: they
    assign attributes of the recipe object ([self.folders], [self.cpp_info])
    and they call out to the host: [self.run], the Meson helpers of
    conan.tools.meson and [copy] of conan.tools.files.  A hook is embedded
    as a function from the recipe object and the world to an outcome; every
    call that leaves the recipe is recorded in the world's trace. *)

From Stdlib Require Import Ascii String.
From stdpp Require Import gmap strings list fin_maps.


(** ** Python strings and posixpath *)

Module Py.

(** [s.startswith(p)] *)
Definition startswith (s p : string) : bool := String.prefix p s.

(** [s.endswith("/")] *)
Fixpoint endswith_sep (s : string) : bool :=
  match s with
  | EmptyString => false
  | String c EmptyString => Ascii.eqb c "/"
  | String _ s' => endswith_sep s'
  end.

(** One round of the loop of [posixpath.join]: an absolute component
    replaces the path built so far, otherwise it is appended, with a
    separator unless the path is empty or already ends in one. *)
Definition join2 (path b : string) : string :=
  if startswith b "/" then b
  else if String.eqb path "" || endswith_sep path then path +:+ b
  else path +:+ "/" +:+ b.

(** [os.path.join(a, *p)] *)
Definition os_path_join (a : string) (p : list string) : string :=
  fold_left join2 p a.

(** [str.lower], on the ASCII letters. *)
Definition lower_char (c : ascii) : ascii :=
  let n := nat_of_ascii c in
  if (65 <=? n)%nat && (n <=? 90)%nat then ascii_of_nat (n + 32) else c.

Fixpoint lower (s : string) : string :=
  match s with
  | EmptyString => EmptyString
  | String c s' => String (lower_char c) (lower s')
  end.

(** [fnmatch.fnmatchcase(name, pat)] for patterns made of literal
    characters, [?] and [*]; as in Python, [*] also matches the path
    separator.  Bracket expressions are not modelled: the recipe's only
    pattern has none. *)
Fixpoint fnmatchcase_pat (pat : string) : string -> bool :=
  match pat with
  | EmptyString => fun name =>
      match name with EmptyString => true | _ => false end
  | String c pat' =>
      if Ascii.eqb c "*" then
        fix star (name : string) : bool :=
          fnmatchcase_pat pat' name ||
          match name with
          | EmptyString => false
          | String _ name' => star name'
          end
      else if Ascii.eqb c "?" then fun name =>
        match name with
        | EmptyString => false
        | String _ name' => fnmatchcase_pat pat' name'
        end
      else fun name =>
        match name with
        | EmptyString => false
        | String d name' => Ascii.eqb c d && fnmatchcase_pat pat' name'
        end
  end.

Definition fnmatch (name pat : string) : bool := fnmatchcase_pat pat name.

(** [s.removeprefix(p)], [None] when [p] is not a prefix of [s]. *)
Fixpoint removeprefix (p s : string) : option string :=
  match p with
  | EmptyString => Some s
  | String a p' =>
      match s with
      | EmptyString => None
      | String b s' => if Ascii.eqb a b then removeprefix p' s' else None
      end
  end.

(** [sub in s] *)
Fixpoint contains (sub s : string) : bool :=
  String.prefix sub s ||
  match s with
  | EmptyString => false
  | String _ s' => contains sub s'
  end.

(** [path.split("/")] *)
Fixpoint split_sep (cur : string) (s : string) : list string :=
  match s with
  | EmptyString => [cur]
  | String c s' =>
      if Ascii.eqb c "/" then cur :: split_sep "" s'
      else split_sep (cur +:+ String c "") s'
  end.

(** The directory names a path walks through: the components between
    separators, without the empty ones and the [.] ones that
    [posixpath.normpath] drops. *)
Definition components (path : string) : list string :=
  filter (fun c => c <> "" /\ c <> ".") (split_sep "" path).

(** [posixpath.normpath]: the number of leading separators that are kept
    (two when there are exactly two), one round of the loop over the
    components, and the function. *)
Definition initial_slashes (path : string) : nat :=
  if startswith path "/" then
    if startswith path "//" && negb (startswith path "///") then 2 else 1
  else 0.

Definition norm_step (slashes : nat) (new_comps : list string) (comp : string)
  : list string :=
  if String.eqb comp "" || String.eqb comp "." then new_comps
  else if negb (String.eqb comp "..")
          || (Nat.eqb slashes 0 && bool_decide (new_comps = []))
          || bool_decide (last new_comps = Some "..")
  then new_comps ++ [comp]
  else take (length new_comps - 1) new_comps.

Definition normpath (path : string) : string :=
  if String.eqb path "" then "."
  else
    let slashes := initial_slashes path in
    let comps := fold_left (norm_step slashes) (split_sep "" path) [] in
    let joined := String.concat "/" comps in
    let joined :=
      match slashes with
      | 0 => joined
      | 1 => "/" +:+ joined
      | _ => "//" +:+ joined
      end in
    if String.eqb joined "" then "." else joined.

(** [posixpath.basename] *)
Definition basename (path : string) : string :=
  default "" (last (split_sep "" path)).

End Py.

(** ** Conan: the recipe object, the host and the library calls *)

Module Conan.

(** The attributes of a recipe object that the hooks read or assign. *)
Record Settings := {
  os : string; compiler : string; build_type : string; arch : string }.

Record Options := { shared : bool }.

(** [self.folders] *)
Record Folders := { source : string; build : string }.

(** [self.cpp_info] *)
Record CppInfo := { libs : list string; includedirs : list string }.

Record ConanFile := {
  settings : Settings;
  options : Options;
  folders : Folders;
  cpp_info : CppInfo;
  package_folder : string }.

(** The exceptions that reach the recipe: the ones Conan raises and the
    ones of the operating system calls. *)
Inductive Exn := ConanException (msg : string) | OSError (msg : string).

(** A regular file: its bytes and its modification time. *)
Record File := { content : string; mtime : nat }.

(** The helper objects, built from the recipe object. *)
Record MesonToolchainT := MesonToolchain { tc_conanfile : ConanFile }.
Record MesonT := Meson { meson_conanfile : ConanFile }.

(** The calls that leave the recipe. *)
Inductive Call :=
| run (command : string)
| tc_generate (tc : MesonToolchainT)
| meson_configure (m : MesonT)
| meson_build (m : MesonT)
| meson_install (m : MesonT)
| copy (conanfile : ConanFile) (pattern src dst : string).

(** The world: the working directory, the regular files (absolute
    normalised path to file; a directory is there when a file lies below
    it, symbolic links and permissions are left out) and the calls made so
    far, each with the files it found and whether it returned normally. *)
Record Event := {
  ev_call : Call; ev_fs : gmap string File; ev_ok : bool }.

Record World := {
  cwd : string; fs : gmap string File; trace : list Event }.

(** What a tool outside the recipe (git, Meson, the toolchain generator)
    does to the files, and the exception it raises, if any. *)
Definition Tools : Type :=
  Call -> string -> gmap string File -> gmap string File * option Exn.

(** *** conan.tools.files.copy

    With the defaults the recipe leaves in place ([keep_path=True],
    [ignore_case=True], no excludes, [overwrite_equal=False]) and for a
    pattern without a directory part, as the one of the recipe.  The walk
    of [src] collects the names, relative to [src], of the files below it,
    leaving out the directory whose name in the walk is the [dst] argument
    itself; the names that match the pattern in lower case are then copied
    one after the other to the normalised path of the same name below
    [dst].  Relative paths are taken from the working directory.  The
    order of the walk is not modelled: the names come in the order of the
    map. *)

Definition selected (pattern rel : string) : bool :=
  negb (String.eqb rel "") && negb (Py.startswith rel "/") &&
  Py.fnmatch (Py.lower rel) (Py.lower pattern).

(** The walk names a directory by [src], with its final separator,
    followed by the relative name of the directory: the directory named
    [dst], with all below it, is skipped. *)
Definition excluded (src_slash dst rel : string) : bool :=
  match Py.removeprefix src_slash dst with
  | Some d => String.eqb d "" || Py.startswith rel (d +:+ "/")
  | None => false
  end.

Definition select_file (pattern src_slash dst src_prefix : string) (path : string)
  : option string :=
  match Py.removeprefix src_prefix path with
  | Some rel =>
      if selected pattern rel && negb (excluded src_slash dst rel)
      then Some rel else None
  | None => None
  end.

Definition files_to_copy (pattern src_slash dst src_prefix : string)
  (files : gmap string File) : list string :=
  omap (select_file pattern src_slash dst src_prefix) (map_to_list files).*1.

(** A regular file is a proper ancestor of the path: [os.makedirs] of the
    parent of the path fails. *)
Definition blocked (files : gmap string File) (path : string) : bool :=
  existsb (fun k => Py.startswith path (k +:+ "/")) (map_to_list files).*1.

(** [os.path.isdir] *)
Definition is_dir (files : gmap string File) (path : string) : bool :=
  existsb (fun k => Py.startswith k (Py.join2 path "")) (map_to_list files).*1.

(** [filecmp.cmp], shallow: the same size and modification time, or else
    the same bytes. *)
Definition same_file (f g : File) : bool :=
  (Nat.eqb (String.length (content f)) (String.length (content g)) &&
   Nat.eqb (mtime f) (mtime g)) ||
  String.eqb (content f) (content g).

(** One round of the loop of [_copy_files]: the parent directories of the
    destination are made, and the file is copied with its modification
    time ([shutil.copy2], which writes into the destination when that is a
    directory) unless the destination is a file that compares equal. *)
Definition copy_file (src_prefix dst dir : string) (files : gmap string File)
  (rel : string) : gmap string File * option Exn :=
  let abs_src_name := src_prefix +:+ rel in
  let abs_dst_name := Py.normpath (Py.join2 dir (Py.join2 dst rel)) in
  if blocked files abs_dst_name then
    (files, Some (OSError "makedirs: a file is in the way"))
  else
    match files !! abs_src_name with
    | None => (files, Some (OSError "No such file or directory"))
    | Some f =>
        if is_dir files abs_dst_name then
          let inside := Py.join2 abs_dst_name (Py.basename rel) in
          if String.eqb inside abs_src_name then
            (files, Some (OSError "SameFileError"))
          else if is_dir files inside then
            (files, Some (OSError "Is a directory"))
          else (<[inside := f]> files, None)
        else
          match files !! abs_dst_name with
          | Some g =>
              if same_file f g then (files, None)
              else (<[abs_dst_name := f]> files, None)
          | None => (<[abs_dst_name := f]> files, None)
          end
    end.

(** [_copy_files]: the loop stops at the first exception. *)
Fixpoint copy_files (src_prefix dst dir : string) (l : list string)
  (files : gmap string File) : gmap string File * option Exn :=
  match l with
  | [] => (files, None)
  | rel :: l' =>
      match copy_file src_prefix dst dir files rel with
      | (files', None) => copy_files src_prefix dst dir l' files'
      | raised => raised
      end
  end.

Definition copy_model (pattern src dst : string) (dir : string)
  (files : gmap string File) : gmap string File * option Exn :=
  if String.eqb src dst then
    (files, Some (ConanException "copy() 'src' and 'dst' arguments must have different values"))
  else if Py.startswith pattern ".." then
    (files, Some (ConanException "copy() it is not possible to use relative patterns starting with '..'"))
  else
    let src_slash := Py.join2 src "" in
    let src_prefix := Py.join2 (Py.normpath (Py.join2 dir src)) "" in
    copy_files src_prefix dst dir
      (files_to_copy pattern src_slash dst src_prefix files) files.

(** *** Hooks as state and exception passing *)

Inductive Res (A : Type) :=
| Ok (a : A) (self : ConanFile) (w : World)
| Raised (e : Exn) (w : World).
Arguments Ok {A} a self w.
Arguments Raised {A} e w.

Definition M (A : Type) : Type := ConanFile -> World -> Res A.

Global Instance M_ret : MRet M := fun A a self w => Ok a self w.

Global Instance M_bind : MBind M := fun A B k m self w =>
  match m self w with
  | Ok a self' w' => k a self' w'
  | Raised e w' => Raised e w'
  end.

(** [self] *)
Definition this : M ConanFile := fun self w => Ok self self w.

(** Attribute assignments. *)
Definition set_folders_source (v : string) : M unit := fun self w =>
  Ok tt {| settings := settings self; options := options self;
           folders := {| source := v; build := build (folders self) |};
           cpp_info := cpp_info self;
           package_folder := package_folder self |} w.

Definition set_folders_build (v : string) : M unit := fun self w =>
  Ok tt {| settings := settings self; options := options self;
           folders := {| source := source (folders self); build := v |};
           cpp_info := cpp_info self;
           package_folder := package_folder self |} w.

Definition set_cpp_info_libs (v : list string) : M unit := fun self w =>
  Ok tt {| settings := settings self; options := options self;
           folders := folders self;
           cpp_info := {| libs := v; includedirs := includedirs (cpp_info self) |};
           package_folder := package_folder self |} w.

Definition set_cpp_info_includedirs (v : list string) : M unit := fun self w =>
  Ok tt {| settings := settings self; options := options self;
           folders := folders self;
           cpp_info := {| libs := libs (cpp_info self); includedirs := v |};
           package_folder := package_folder self |} w.

Section Calls.
Context (ext : Tools).

(** What a call does to the files: [copy] is the library function above,
    the other calls are the host's tools. *)
Definition effect (c : Call) (dir : string) (files : gmap string File)
  : gmap string File * option Exn :=
  match c with
  | copy _ pattern src dst => copy_model pattern src dst dir files
  | _ => ext c dir files
  end.

(** Make a call: it is recorded, its effect on the files takes place and
    its exception, if any, propagates. *)
Definition call (c : Call) : M unit := fun self w =>
  let r := effect c (cwd w) (fs w) in
  let w' ok := {| cwd := cwd w; fs := r.1;
                  trace := trace w ++ [{| ev_call := c; ev_fs := fs w; ev_ok := ok |}] |} in
  match r.2 with
  | None => Ok tt self (w' true)
  | Some e => Raised e (w' false)
  end.

End Calls.

(** The folders of the recipe are relative; the host resolves them against
    the base directory it supplies. *)
Definition resolve (base folder : string) : string :=
  Py.os_path_join base [folder].

End Conan.

(** ** The recipe class *)

Module FossilSysConan.
Import Conan.

Definition name := "fossil_sys".
Definition version := "0.1.3".
Definition license := "MPL-2.0".
Definition author := "Fossil Logic <michaelbrockus@gmail.com>".
Definition url := "https://github.com/fossillogic/fossil-sys".
Definition description := "Fossil Sys is a lightweight, portable system level library written in pure C with zero external dependencies.".
Definition topics := ["c"; "memory"; "binary"; "host"; "cpp"; "meson"; "conan-recipe"; "mesonbuild"; "ninja-build"].
Definition default_options : Options := {| shared := false |}.
Definition exports_sources := ["code/**"; "meson.build"; "meson.options"].
Definition generators := "PkgConfigDeps".

Section Hooks.
Context (ext : Tools).

(** Define a basic build/source folder layout *)
Definition layout : M unit :=
  set_folders_source ".";;
  set_folders_build "builddir".

(** Generate Meson toolchain files *)
Definition generate : M unit :=
  self ← this;
  let tc := MesonToolchain self in
  call ext (tc_generate tc).

(** Configure and build the project using Meson *)
Definition build : M unit :=
  self ← this;
  let meson := Meson self in
  call ext (meson_configure meson);;
  call ext (meson_build meson).

(** The first definition of [source] in the class body (line 38). *)
Definition source_38 : M unit :=
  call ext (run ("git clone --branch v" +:+ version +:+ " --depth 1 " +:+ url)).

(** The copy that follows the install step in [package]. *)
Definition package_copy : M unit :=
  self ← this;
  call ext (copy self "*.h" "code/logic/fossil/sys"
              (Py.os_path_join (package_folder self) ["include"; "fossil"; "sys"])).

(** Install headers and libraries into package folder *)
Definition package : M unit :=
  self ← this;
  let meson := Meson self in
  call ext (meson_install meson);;
  package_copy.

(** Set information for consumers of the package *)
Definition package_info : M unit :=
  set_cpp_info_libs ["fossil_sys"];;
  set_cpp_info_includedirs ["include"].

(** The second definition of [source] in the class body (line 56). *)
Definition source_56 : M unit :=
  call ext (run ("git clone --branch v" +:+ version +:+ " " +:+ url)).

(** The methods of the class body, in the order of the file.  A later
    [def] of a name rebinds it: looking a name up finds its last
    binding. *)
Definition class_body : list (string * M unit) :=
  [ ("layout", layout); ("generate", generate); ("build", build);
    ("source", source_38); ("package", package);
    ("package_info", package_info); ("source", source_56) ].

Definition getattr (attr : string) : option (M unit) :=
  fold_left (fun found b => if String.eqb b.1 attr then Some b.2 else found)
    class_body None.

(** [self.source()], as the host calls it. *)
Definition source : M unit :=
  match getattr "source" with
  | Some m => m
  | None => fun _ w => Raised (ConanException "AttributeError: source") w
  end.

End Hooks.

End FossilSysConan.

(** ** Observing a hook *)

Definition world_of {A : Type} (r : Conan.Res A) : Conan.World :=
  match r with
  | Conan.Ok _ _ w => w
  | Conan.Raised _ w => w
  end.

(** The calls a hook made, when it was started in world [w]. *)
Definition issued {A : Type} (w : Conan.World) (r : Conan.Res A) : list Conan.Call :=
  Conan.ev_call <$> drop (length (Conan.trace w)) (Conan.trace (world_of r)).

(** Whether the hook came back without an exception. *)
Definition returned {A : Type} (r : Conan.Res A) : bool :=
  match r with
  | Conan.Ok _ _ _ => true
  | Conan.Raised _ _ => false
  end.

(** A file lies below a directory when the directory's components are the
    first components of the file's path. *)
Definition below (dir path : string) : Prop :=
  Py.components dir `prefix_of` Py.components path.

(** A directory is populated, and exists, when some file lies below it. *)
Definition populated (dir : string) (files : gmap string Conan.File) : Prop :=
  exists path, is_Some (files !! path) /\ below dir path.

(** The source folder the host derives from the layout. *)
Definition source_folder (self : Conan.ConanFile) (w : Conan.World) : string :=
  Conan.resolve (Conan.cwd w) (Conan.source (Conan.folders self)).

(** An earlier configure call returned normally, on files with the same
    fingerprint as the present ones. *)
Definition configured_before {D : Type} (fingerprint : gmap string Conan.File -> D)
  (w : Conan.World) : Prop :=
  exists e, e ∈ Conan.trace w /\
    (exists m, Conan.ev_call e = Conan.meson_configure m) /\
    Conan.ev_ok e = true /\
    fingerprint (Conan.ev_fs e) = fingerprint (Conan.fs w).

(** The directory include/ns/sys of the package folder, as [package]
    writes it, taken from the working directory.  [package] copies to the
    one with ns = fossil. *)
Definition package_dir (ns : string) (self : Conan.ConanFile) (w : Conan.World) : string :=
  Py.join2 (Conan.cwd w)
    (Py.os_path_join (Conan.package_folder self) ["include"; ns; "sys"]).

Definition headers_dst (self : Conan.ConanFile) (w : Conan.World) : string :=
  package_dir "fossil" self w.

(** The header directory of the recipe and the destination of the copy of
    [package], as the files of the world name them: normalised, and with
    the final separator. *)
Definition headers_dir (w : Conan.World) : string :=
  Py.join2 (Py.normpath (Py.join2 (Conan.cwd w) "code/logic/fossil/sys")) "".

Definition destination (self : Conan.ConanFile) (w : Conan.World) : string :=
  Py.join2 (Py.normpath (headers_dst self w)) "".

(** The destination argument of the copy of [package], the names the
    copy finds below the header directory, and whether a name is that of
    a file there. *)
Definition package_dst (self : Conan.ConanFile) : string :=
  Py.os_path_join (Conan.package_folder self) ["include"; "fossil"; "sys"].

Definition header_names (self : Conan.ConanFile) (w : Conan.World)
  (files : gmap string Conan.File) : list string :=
  Conan.files_to_copy "*.h" "code/logic/fossil/sys/" (package_dst self) (headers_dir w) files.

Definition header_found (w : Conan.World) (rel : string) : Prop :=
  is_Some (Conan.fs w !! (headers_dir w +:+ rel)).

(** A path from the root: it starts with a slash, and not with exactly
    two, which [normpath] keeps apart from one. *)
Definition rooted (path : string) : bool :=
  Nat.eqb (Py.initial_slashes path) 1.

(** Neither of two directories, both normalised and with their final
    separator, lies inside the other. *)
Definition apart (dir1 dir2 : string) : Prop :=
  Py.startswith dir2 dir1 = false /\ Py.startswith dir1 dir2 = false.

(** A name that is neither empty nor [.] nor [..], a relative path made of
    such names, and a normalised absolute path. *)
Definition plain (c : string) : bool :=
  negb (String.eqb c "") && negb (String.eqb c ".") && negb (String.eqb c "..").

Definition plain_rel (rel : string) : bool :=
  forallb plain (Py.split_sep "" rel).

Definition canonical (path : string) : bool :=
  match path with
  | EmptyString => false
  | String c rest => Ascii.eqb c "/" && plain_rel rest
  end.

(** The two places, below the destination, that the copy of a relative
    name may write to: the name itself and, when that is a directory
    there, its last name inside it. *)
Definition places (rel z : string) : Prop :=
  z = rel \/ z = rel +:+ "/" +:+ Py.basename rel.

(** The files of a file system: every file has a normalised absolute path
    and no file lies below another file. *)
Definition well_formed (files : gmap string Conan.File) : bool :=
  forallb (fun k => canonical k && negb (Conan.blocked files k)) (map_to_list files).*1.

(** The worlds a hook runs in: the working directory is a path from the
    root, as [os.getcwd] gives it, and the files are well formed. *)
Definition well_formed_world (w : Conan.World) : bool :=
  rooted (Conan.cwd w) && well_formed (Conan.fs w).

(** ** Concrete hosts and inputs *)

(** A host whose tools return normally and leave the files alone. *)
Definition quiet_tools : Conan.Tools := fun _ _ files => (files, None).

(** A recipe object as the host creates it, before any hook has run. *)
Definition fresh (s : Conan.Settings) (o : Conan.Options) (pkg : string) : Conan.ConanFile :=
  {| Conan.settings := s; Conan.options := o;
     Conan.folders := {| Conan.source := ""; Conan.build := "" |};
     Conan.cpp_info := {| Conan.libs := []; Conan.includedirs := [] |};
     Conan.package_folder := pkg |}.

Definition linux_gcc : Conan.Settings :=
  {| Conan.os := "Linux"; Conan.compiler := "gcc";
     Conan.build_type := "Release"; Conan.arch := "x86_64" |}.

Definition windows_msvc : Conan.Settings :=
  {| Conan.os := "Windows"; Conan.compiler := "msvc";
     Conan.build_type := "Debug"; Conan.arch := "armv8" |}.

Definition self0 : Conan.ConanFile :=
  fresh linux_gcc FossilSysConan.default_options "/pkg".

(** The recipe object after [layout]. *)
Definition laid_out : Conan.ConanFile :=
  {| Conan.settings := linux_gcc; Conan.options := FossilSysConan.default_options;
     Conan.folders := {| Conan.source := "."; Conan.build := "builddir" |};
     Conan.cpp_info := {| Conan.libs := []; Conan.includedirs := [] |};
     Conan.package_folder := "/pkg" |}.


(** No file at all. *)
Definition empty_world : Conan.World :=
  {| Conan.cwd := "/work"; Conan.fs := ∅; Conan.trace := [] |}.

(** A checked-out source tree with a generated toolchain file. *)
Definition header : Conan.File :=
  {| Conan.content := "#pragma once"; Conan.mtime := 2 |}.

Definition tree : gmap string Conan.File :=
  <["/work/meson.build" :=
      {| Conan.content := "project('fossil-sys', 'c')"; Conan.mtime := 1 |}]>
  (<["/work/code/logic/fossil/sys/hostinfo.h" := header]>
  (<["/work/code/logic/fossil/sys/hostinfo.c" :=
      {| Conan.content := "int fossil_sys_hostinfo;"; Conan.mtime := 3 |}]>
  (<["/work/builddir/conan_meson_native.ini" :=
      {| Conan.content := "[binaries]"; Conan.mtime := 4 |}]> ∅))).

Definition tree_world : Conan.World :=
  {| Conan.cwd := "/work"; Conan.fs := tree; Conan.trace := [] |}.

Definition toolchain_file (files : gmap string Conan.File) : option Conan.File :=
  files !! "/work/builddir/conan_meson_native.ini".


(** ** The claims that the recipe does not meet, as stated *)


(** After a configure that succeeded on the same toolchain file, [build]
    makes the build call only. *)
Definition build_skips_configure : Prop :=
  forall (fingerprint : gmap string Conan.File -> option Conan.File) ext self w,
    configured_before fingerprint w ->
    issued w (FossilSysConan.build ext self w) = [Conan.meson_build (Conan.Meson self)].

(** On a populated source folder [source] does nothing and returns. *)
Definition source_skips_populated : Prop :=
  forall ext self w,
    populated (source_folder self w) (Conan.fs w) ->
    FossilSysConan.source ext self w = Conan.Ok tt self w.

(** [layout] raises when the base directory does not exist. *)
Definition layout_checks_base : Prop :=
  forall self w,
    ~ populated (Conan.cwd w) (Conan.fs w) ->
    returned (FossilSysConan.layout self w) = false.


(** ** What the host exports with the recipe *)

(** The files of the recipe folder that go with the recipe are the ones
    whose name relative to the folder matches one of the patterns of
    [exports_sources]; the patterns are matched as [copy] matches them. *)
Definition exported (rel : string) : bool :=
  existsb (fun pattern => Conan.selected pattern rel) FossilSysConan.exports_sources.

(** A pattern without the wildcards [*] and [?]. *)
Fixpoint wildcard_free (pat : string) : bool :=
  match pat with
  | EmptyString => true
  | String c pat' =>
      negb (Ascii.eqb c "*") && negb (Ascii.eqb c "?") && wildcard_free pat'
  end.

(** ** The library functions on examples *)

Example join_three : Py.os_path_join "/p" ["include"; "fossil"; "sys"] = "/p/include/fossil/sys".
Proof. reflexivity. Qed.

Example join_trailing : Py.os_path_join "code/logic" [""] = "code/logic/".
Proof. reflexivity. Qed.

Example join_absolute : Py.os_path_join "a" ["/b"; "c"] = "/b/c".
Proof. reflexivity. Qed.

Example fnmatch_h : Py.fnmatch (Py.lower "Sub/HostInfo.H") (Py.lower "*.h") = true.
Proof. reflexivity. Qed.

Example fnmatch_c : Py.fnmatch "host.c" "*.h" = false.
Proof. reflexivity. Qed.

Example components_dot : Py.components "/a//b/./c/" = ["a"; "b"; "c"].
Proof. reflexivity. Qed.

(** ** Strings *)

Section StringFacts.
Implicit Types s t u : string.

Lemma append_cons a s t : String a s +:+ t = String a (s +:+ t).
Proof. reflexivity. Qed.

Lemma append_empty_r s : s +:+ "" = s.
Proof. induction s as [|a s IH]; [done|]. by rewrite append_cons, IH. Qed.

Lemma append_assoc s t u : (s +:+ t) +:+ u = s +:+ (t +:+ u).
Proof. induction s as [|a s IH]; [done|]. by rewrite !append_cons, IH. Qed.

Lemma append_inv_head s t u : s +:+ t = s +:+ u -> t = u.
Proof.
  induction s as [|a s IH]; [done|].
  rewrite !append_cons. intros [= H]. by apply IH.
Qed.

Lemma ascii_eqb_true a b : Ascii.eqb a b = true <-> a = b.
Proof. apply Ascii.eqb_eq. Qed.

Lemma removeprefix_Some p s r : Py.removeprefix p s = Some r <-> s = p +:+ r.
Proof.
  revert s. induction p as [|a p IH]; intros s; simpl.
  - split; [by intros [= ->]|by intros ->].
  - destruct s as [|b s]; [done|].
    rewrite append_cons. destruct (Ascii.eqb a b) eqn:E.
    + apply ascii_eqb_true in E as ->. rewrite IH.
      split; [by intros ->|by intros [= ->]].
    + split; [done|]. intros [= -> _].
      by rewrite Ascii.eqb_refl in E.
Qed.

Lemma removeprefix_append p r : Py.removeprefix p (p +:+ r) = Some r.
Proof. by apply removeprefix_Some. Qed.

Lemma endswith_sep_inv s : Py.endswith_sep s = true -> exists s0, s = s0 +:+ "/".
Proof.
  induction s as [|a s IH]; [done|]. simpl.
  destruct s as [|b s].
  - intros ->%ascii_eqb_true. by exists "".
  - intros [s0 ->]%IH. by exists (String a s0).
Qed.

Lemma endswith_sep_append_char s a : Py.endswith_sep (s +:+ String a "") = Ascii.eqb a "/".
Proof.
  induction s as [|b s IH]; [done|].
  rewrite append_cons. simpl. rewrite IH.
  by destruct s.
Qed.

End StringFacts.

(** ** Hooks and the trace *)

Lemma issued_call ext c self w :
  issued w (Conan.call ext c self w) = [c].
Proof.
  unfold issued, Conan.call.
  destruct (Conan.effect ext c (Conan.cwd w) (Conan.fs w)).2; simpl;
    by rewrite drop_app_length.
Qed.

Lemma call_changes_world ext c self w :
  Conan.call ext c self w <> Conan.Ok tt self w.
Proof.
  unfold Conan.call.
  destruct (Conan.effect ext c (Conan.cwd w) (Conan.fs w)).2; [done|].
  destruct w as [d f t]; simpl. intros [= _ H].
  apply (f_equal length) in H. rewrite length_app in H. simpl in H. lia.
Qed.

Lemma fs_call ext c self w :
  Conan.fs (world_of (Conan.call ext c self w)) =
  (Conan.effect ext c (Conan.cwd w) (Conan.fs w)).1.
Proof.
  unfold Conan.call.
  by destruct (Conan.effect ext c (Conan.cwd w) (Conan.fs w)).2.
Qed.

Lemma returned_call ext c self w :
  returned (Conan.call ext c self w) =
  bool_decide ((Conan.effect ext c (Conan.cwd w) (Conan.fs w)).2 = None).
Proof.
  unfold Conan.call.
  by destruct (Conan.effect ext c (Conan.cwd w) (Conan.fs w)).2.
Qed.

(** The host calls the second definition of [source]. *)
Lemma source_is_second_def ext : FossilSysConan.source ext = FossilSysConan.source_56 ext.
Proof. reflexivity. Qed.

(** ** source *)

(** C1. The command [source] runs asks for the branch v0.1.3 of the
    recipe's url, and it asks for the whole history: it has no depth
    option, unlike the command of the first definition of [source],
    which the second definition replaces. *)
Theorem source_clone_is_not_shallow ext self w :
  let cmd := "git clone --branch v0.1.3 https://github.com/fossillogic/fossil-sys" in
  FossilSysConan.source ext self w = Conan.call ext (Conan.run cmd) self w /\
  issued w (FossilSysConan.source ext self w) = [Conan.run cmd] /\
  Py.contains "--branch v0.1.3 " cmd = true /\
  Py.contains FossilSysConan.url cmd = true /\
  Py.contains "--depth" cmd = false /\
  issued w (FossilSysConan.source_38 ext self w) =
    [Conan.run "git clone --branch v0.1.3 --depth 1 https://github.com/fossillogic/fossil-sys"].
Proof.
  intros cmd. rewrite source_is_second_def.
  split; [reflexivity|]. split; [apply issued_call|].
  repeat split; try reflexivity. apply issued_call.
Qed.

(** C4, as stated, fails: on the checked-out tree [source] is called, it
    does not come back with the world as it was. *)
Lemma source_on_populated_folder_runs_clone :
  populated (source_folder laid_out tree_world) (Conan.fs tree_world) /\
  issued tree_world (FossilSysConan.source quiet_tools laid_out tree_world) =
    [Conan.run "git clone --branch v0.1.3 https://github.com/fossillogic/fossil-sys"] /\
  ~ source_skips_populated.
Proof.
  split; [|split; [reflexivity|]].
  { exists "/work/meson.build". split; [by eexists|].
    by exists ["meson.build"]. }
  intros H.
  assert (populated (source_folder laid_out tree_world) (Conan.fs tree_world)) as P.
  { exists "/work/meson.build". split; [by eexists|].
    by exists ["meson.build"]. }
  specialize (H quiet_tools laid_out tree_world P).
  rewrite source_is_second_def in H.
  by apply call_changes_world in H.
Qed.

(** C4, amended. Whatever the files are, [source] runs the clone command
    for the branch v0.1.3 once more: it makes no check of the source
    folder, and it returns or raises as the command does. *)
Theorem source_always_runs_clone ext self w :
  let c := Conan.run "git clone --branch v0.1.3 https://github.com/fossillogic/fossil-sys" in
  issued w (FossilSysConan.source ext self w) = [c] /\
  Conan.fs (world_of (FossilSysConan.source ext self w)) = (ext c (Conan.cwd w) (Conan.fs w)).1 /\
  returned (FossilSysConan.source ext self w) =
    bool_decide ((ext c (Conan.cwd w) (Conan.fs w)).2 = None).
Proof.
  intros c. rewrite source_is_second_def.
  change (FossilSysConan.source_56 ext self w) with (Conan.call ext c self w).
  split; [apply issued_call|].
  split; [apply fs_call|apply returned_call].
Qed.

(** ** generate *)

(** [generate] makes one call, to the toolchain generator, with the recipe
    object as it is; the files it leaves are the ones the generator
    leaves. *)
Lemma generate_calls_toolchain ext self w :
  let c := Conan.tc_generate (Conan.MesonToolchain self) in
  issued w (FossilSysConan.generate ext self w) = [c] /\
  Conan.fs (world_of (FossilSysConan.generate ext self w)) =
    (ext c (Conan.cwd w) (Conan.fs w)).1.
Proof.
  intros c.
  change (FossilSysConan.generate ext self w) with (Conan.call ext c self w).
  split; [apply issued_call|apply fs_call].
Qed.

(** ** build *)

(** C3, as stated, fails: after a first [build] has configured, with the
    toolchain file untouched, a second [build] configures again. *)
Lemma build_configures_again :
  let w1 := world_of (FossilSysConan.build quiet_tools laid_out tree_world) in
  configured_before toolchain_file w1 /\
  issued w1 (FossilSysConan.build quiet_tools laid_out w1) =
    [Conan.meson_configure (Conan.Meson laid_out); Conan.meson_build (Conan.Meson laid_out)] /\
  ~ build_skips_configure.
Proof.
  intros w1.
  assert (configured_before toolchain_file w1) as C.
  { eexists. split; [apply list_elem_of_here|].
    split; [by eexists|]. split; reflexivity. }
  split; [done|]. split; [reflexivity|].
  intros H. by specialize (H toolchain_file quiet_tools laid_out w1 C).
Qed.

(** C3, amended. Every [build] makes the configure call first, whatever
    was configured before; the build call follows when configure returns
    normally, and when it raises [build] raises. *)
Theorem build_always_configures ext self w :
  let m := Conan.Meson self in
  let configured := (ext (Conan.meson_configure m) (Conan.cwd w) (Conan.fs w)).2 in
  issued w (FossilSysConan.build ext self w) =
    Conan.meson_configure m ::
      (if configured is None then [Conan.meson_build m] else []) /\
  (if configured is None then True
   else returned (FossilSysConan.build ext self w) = false).
Proof.
  intros m configured.
  unfold FossilSysConan.build, issued, Conan.call, mbind, Conan.M_bind, Conan.this.
  simpl. fold m. fold configured.
  destruct configured as [e|]; simpl.
  - split; [by rewrite drop_app_length|done].
  - split; [|done].
    destruct (ext (Conan.meson_build m) _ _).2; simpl;
      by rewrite <- app_assoc, drop_app_length.
Qed.

(** ** layout *)

(** C5, as stated, fails: with no file at all, so that no directory
    exists, [layout] returns. *)
Lemma layout_returns_without_base :
  ~ populated (Conan.cwd empty_world) (Conan.fs empty_world) /\
  returned (FossilSysConan.layout self0 empty_world) = true /\
  ~ layout_checks_base.
Proof.
  assert (~ populated (Conan.cwd empty_world) (Conan.fs empty_world)) as P.
  { intros (path & [c Hc] & _). simpl in Hc. by rewrite lookup_empty in Hc. }
  split; [done|]. split; [reflexivity|].
  intros H. by specialize (H self0 empty_world P).
Qed.

(** C5, amended. [layout] never raises, whatever the files are, and it
    leaves the world as it was: no file is created and no call is made. *)
Theorem layout_returns_and_keeps_world self w :
  exists self', FossilSysConan.layout self w = Conan.Ok tt self' w.
Proof. by eexists. Qed.

Lemma split_sep_append_sep cur s t :
  Py.split_sep cur (s +:+ String "/" t) = Py.split_sep cur s ++ Py.split_sep "" t.
Proof.
  revert cur. induction s as [|a s IH]; intros cur; [done|].
  rewrite append_cons. simpl.
  destruct (Ascii.eqb a "/"); by rewrite IH.
Qed.

(** Joining a relative name to a path walks on from the path. *)
Lemma components_join2 base b :
  Py.startswith b "/" = false ->
  Py.components (Py.join2 base b) = Py.components base ++ Py.components b.
Proof.
  intros Hb. unfold Py.join2. rewrite Hb.
  destruct (String.eqb base "") eqn:E; simpl.
  { apply String.eqb_eq in E as ->. done. }
  unfold Py.components.
  destruct (Py.endswith_sep base) eqn:S.
  - apply endswith_sep_inv in S as [s0 ->].
    rewrite append_assoc.
    change ("/" +:+ b) with (String "/" b).
    change (s0 +:+ "/") with (s0 +:+ String "/" "").
    rewrite !split_sep_append_sep, !filter_app.
    change (filter _ (Py.split_sep "" "")) with (@nil string).
    by rewrite app_nil_r.
  - change ("/" +:+ b) with (String "/" b).
    by rewrite split_sep_append_sep, filter_app.
Qed.

(** C8. [layout] sets the source folder to [.] and the build folder to
    [builddir]: resolved against any base directory, the first is the base
    directory itself and the second is its subdirectory builddir. *)
Theorem layout_source_is_base_build_is_builddir self w base :
  exists self',
    FossilSysConan.layout self w = Conan.Ok tt self' w /\
    Conan.source (Conan.folders self') = "." /\
    Conan.build (Conan.folders self') = "builddir" /\
    Py.components (Conan.resolve base (Conan.source (Conan.folders self'))) =
      Py.components base /\
    Py.components (Conan.resolve base (Conan.build (Conan.folders self'))) =
      Py.components base ++ ["builddir"].
Proof.
  eexists. split; [reflexivity|]. simpl.
  split; [done|]. split; [done|].
  unfold Conan.resolve, Py.os_path_join. simpl.
  rewrite !components_join2 by done.
  split; [apply app_nil_r|done].
Qed.

(** ** package_info *)

(** C7. The libraries and include directories that [package_info] sets are
    the same for any two recipe objects, whatever their settings and
    options: the one library is the package name and the one include
    directory is include. *)
Theorem package_info_same_for_all_settings self1 self2 w1 w2 :
  exists self1' self2',
    FossilSysConan.package_info self1 w1 = Conan.Ok tt self1' w1 /\
    FossilSysConan.package_info self2 w2 = Conan.Ok tt self2' w2 /\
    Conan.cpp_info self1' = Conan.cpp_info self2' /\
    Conan.libs (Conan.cpp_info self1') = [FossilSysConan.name] /\
    Conan.includedirs (Conan.cpp_info self1') = ["include"].
Proof. by do 2 eexists. Qed.

Example package_info_on_two_hosts :
  match FossilSysConan.package_info (fresh windows_msvc {| Conan.shared := true |} "/cache/p") empty_world,
        FossilSysConan.package_info self0 tree_world with
  | Conan.Ok _ s1 _, Conan.Ok _ s2 _ => Conan.cpp_info s1 = Conan.cpp_info s2
  | _, _ => False
  end.
Proof. reflexivity. Qed.

(** C10. [package_info] returns, for every recipe object and every world,
    also one without files; it leaves the world as it was, so it reads and
    writes no file and makes no call, and the recipe object it leaves has
    the libraries [fossil_sys] and the include directories [include]. *)
Theorem package_info_total_and_constant self w :
  FossilSysConan.package_info self w =
    Conan.Ok tt
      {| Conan.settings := Conan.settings self;
         Conan.options := Conan.options self;
         Conan.folders := Conan.folders self;
         Conan.cpp_info := {| Conan.libs := ["fossil_sys"]; Conan.includedirs := ["include"] |};
         Conan.package_folder := Conan.package_folder self |} w.
Proof. reflexivity. Qed.


(** ** Paths *)

Section PathFacts.
Implicit Types s t u cur rel : string.

Lemma length_append s t : String.length (s +:+ t) = String.length s + String.length t.
Proof. induction s as [|a s IH]; [done|]. rewrite append_cons. simpl. by rewrite IH. Qed.

Lemma append_eq_empty s t : s +:+ t = "" -> s = "" /\ t = "".
Proof. destruct s; [done|]. by rewrite append_cons. Qed.

Lemma eqb_append_empty s t : t <> "" -> String.eqb (s +:+ t) "" = false.
Proof.
  intros Ht. apply String.eqb_neq. by intros [_ ?]%append_eq_empty.
Qed.

Lemma endswith_sep_append s t : t <> "" -> Py.endswith_sep (s +:+ t) = Py.endswith_sep t.
Proof.
  intros Ht. induction s as [|a s IH]; [done|].
  rewrite append_cons. simpl. rewrite IH.
  destruct (s +:+ t) eqn:E; [|done].
  by apply append_eq_empty in E as [_ ?].
Qed.

(** Joining a relative name appends it to the directory. *)
Lemma join2_relative a b :
  Py.startswith b "/" = false -> Py.join2 a b = Py.join2 a "" +:+ b.
Proof.
  intros Hb. unfold Py.join2. rewrite Hb. simpl.
  destruct (String.eqb a "" || Py.endswith_sep a).
  - by rewrite append_empty_r.
  - by rewrite append_empty_r, append_assoc.
Qed.

Lemma join2_absolute a b : Py.startswith b "/" = true -> Py.join2 a b = b.
Proof. intros Hb. unfold Py.join2. by rewrite Hb. Qed.

Lemma selected_relative pattern rel :
  Conan.selected pattern rel = true -> Py.startswith rel "/" = false.
Proof.
  unfold Conan.selected. intros [[_ H]%andb_prop _]%andb_prop.
  by apply negb_true_iff in H.
Qed.

Lemma prefix_append s t : String.prefix s (s +:+ t) = true.
Proof.
  induction s as [|a s IH]; [by destruct t|].
  rewrite append_cons. simpl. by destruct (ascii_dec a a).
Qed.

Lemma prefix_true_iff s t : String.prefix s t = true <-> exists r, t = s +:+ r.
Proof.
  split; [|intros [r ->]; apply prefix_append].
  revert t. induction s as [|a s IH]; intros t; [by exists t|].
  destruct t as [|b t]; [done|]. simpl.
  destruct (ascii_dec a b) as [->|]; [|done].
  intros [r ->]%IH. by exists r.
Qed.

(** One directory does not lie inside the other: no path below the one is
    a path below the other. *)
Lemma prefix_apart s t r r' :
  String.prefix s t = false -> String.prefix t s = false -> t +:+ r <> s +:+ r'.
Proof.
  revert t. induction s as [|a s IH]; intros t Hst Hts.
  { by destruct t. }
  destruct t as [|b t]; [done|].
  simpl in Hst, Hts. rewrite !append_cons. intros [= -> H].
  destruct (ascii_dec a a); [|done].
  by eapply IH.
Qed.

(** Two strings that start the same string: one starts the other. *)
Lemma append_eq_append s t u v :
  s +:+ u = t +:+ v -> exists r, (s = t +:+ r /\ v = r +:+ u) \/ (t = s +:+ r /\ u = r +:+ v).
Proof.
  revert t. induction s as [|a s IH]; intros t.
  { intros H. exists t. right. split; [done|exact H]. }
  destruct t as [|b t].
  { intros H. exists (String a s). left. split; [done|]. symmetry. exact H. }
  rewrite !append_cons. intros [= -> H].
  destruct (IH _ H) as [r [[-> ->]|[-> ->]]]; exists r; [by left|by right].
Qed.

(** *** split and join *)

Lemma split_sep_not_nil cur s : Py.split_sep cur s <> [].
Proof.
  revert cur. induction s as [|a s IH]; intros cur; simpl; [done|].
  by destruct (Ascii.eqb a "/").
Qed.

Lemma concat_cons sep x l :
  l <> [] -> String.concat sep (x :: l) = x +:+ sep +:+ String.concat sep l.
Proof. by destruct l. Qed.

Lemma concat_split_sep cur s : String.concat "/" (Py.split_sep cur s) = cur +:+ s.
Proof.
  revert cur. induction s as [|a s IH]; intros cur; simpl.
  { by rewrite append_empty_r. }
  destruct (Ascii.eqb a "/") eqn:E.
  - apply ascii_eqb_true in E as ->.
    rewrite concat_cons by apply split_sep_not_nil. by rewrite IH.
  - by rewrite IH, append_assoc.
Qed.

Lemma split_sep_no_sep cur s :
  Py.endswith_sep cur = false ->
  Forall (fun c => Py.endswith_sep c = false) (Py.split_sep cur s).
Proof.
  revert cur. induction s as [|a s IH]; intros cur Hc; simpl.
  { by constructor. }
  destruct (Ascii.eqb a "/") eqn:E.
  - constructor; [done|]. by apply IH.
  - apply IH. by rewrite endswith_sep_append_char.
Qed.

Lemma concat_app (a b : list string) :
  a <> [] -> b <> [] ->
  String.concat "/" (a ++ b) = String.concat "/" a +:+ "/" +:+ String.concat "/" b.
Proof.
  intros Ha Hb. induction a as [|x a IH]; [done|].
  destruct a as [|y a].
  - simpl app. by rewrite concat_cons.
  - change ((x :: y :: a) ++ b) with (x :: ((y :: a) ++ b)).
    rewrite !concat_cons by done. rewrite IH by done.
    by rewrite !append_assoc.
Qed.

Lemma concat_not_empty (l : list string) :
  l <> [] -> Forall (fun c => c <> "") l -> String.concat "/" l <> "".
Proof.
  destruct l as [|x l]; [done|]. intros _ [Hx _]%Forall_cons.
  destruct l; [done|]. rewrite concat_cons by done.
  by intros [? _]%append_eq_empty.
Qed.

Lemma endswith_sep_cons a s : s <> "" -> Py.endswith_sep (String a s) = Py.endswith_sep s.
Proof. by destruct s. Qed.

Lemma concat_endswith (l : list string) :
  l <> [] -> Forall (fun c => c <> "" /\ Py.endswith_sep c = false) l ->
  Py.endswith_sep (String.concat "/" l) = false.
Proof.
  induction l as [|x l IH]; [done|]. intros _ [[Hx Hs] Hl]%Forall_cons.
  destruct l as [|y l]; [done|].
  rewrite concat_cons by done.
  rewrite endswith_sep_append by done.
  assert (String.concat "/" (y :: l) <> "") as Hne.
  { apply concat_not_empty; [done|]. eapply Forall_impl; [done|]. by intros ? [? _]. }
  change ("/" +:+ String.concat "/" (y :: l)) with (String "/" (String.concat "/" (y :: l))).
  rewrite endswith_sep_cons by done. by apply IH.
Qed.

End PathFacts.

(** ** normpath *)

Section NormpathFacts.
Implicit Types s t rel D : string.

Lemma forallb_Forall {A} (f : A -> bool) (l : list A) :
  forallb f l = true <-> Forall (fun x => f x = true) l.
Proof.
  induction l as [|x l IH]; simpl; [by split; [constructor|]|].
  rewrite andb_true_iff, Forall_cons, IH. done.
Qed.

Lemma existsb_elem_of {A} (f : A -> bool) (l : list A) :
  existsb f l = true <-> exists x, x ∈ l /\ f x = true.
Proof.
  induction l as [|y l IH]; simpl.
  { split; [done|]. by intros (x & ?%elem_of_nil & _). }
  rewrite orb_true_iff, IH. split.
  - intros [H|(x & Hx & Hf)]; [exists y|exists x]; by rewrite elem_of_cons; auto.
  - intros (x & [->|Hx]%elem_of_cons & Hf); [by left|right; by exists x].
Qed.

Lemma prefix_empty s : String.prefix "" s = true.
Proof. by destruct s. Qed.

Lemma startswith_sep_cons a s : Py.startswith (String a s) "/" = Ascii.eqb a "/".
Proof.
  unfold Py.startswith. cbn [String.prefix]. rewrite prefix_empty.
  destruct (ascii_dec "/" a) as [<-|H]; [done|].
  symmetry. apply Ascii.eqb_neq. congruence.
Qed.

Lemma plain_rel_not_empty rel : plain_rel rel = true -> rel <> "".
Proof. intros H ->. by vm_compute in H. Qed.

Lemma plain_rel_relative rel : plain_rel rel = true -> Py.startswith rel "/" = false.
Proof.
  intros H. destruct rel as [|a rel]; [reflexivity|].
  rewrite startswith_sep_cons. destruct (Ascii.eqb a "/") eqn:E; [|done].
  apply ascii_eqb_true in E as ->. by vm_compute in H.
Qed.

Lemma plain_rel_no_final_sep rel : plain_rel rel = true -> Py.endswith_sep rel = false.
Proof.
  intros H. destruct (Py.endswith_sep rel) eqn:E; [|done].
  apply endswith_sep_inv in E as [r ->]. unfold plain_rel in H.
  change (r +:+ "/") with (r +:+ String "/" "") in H.
  rewrite split_sep_append_sep, forallb_app in H.
  by apply andb_prop in H as [_ ?].
Qed.

(** A plain name is put on the stack. *)
Lemma norm_step_plain n acc c : plain c = true -> Py.norm_step n acc c = acc ++ [c].
Proof.
  unfold plain, Py.norm_step.
  intros [[H1%negb_true_iff H2%negb_true_iff]%andb_prop H3]%andb_prop.
  by rewrite H1, H2, H3.
Qed.

Lemma norm_fold_plain n (l acc : list string) :
  Forall (fun c => plain c = true) l -> fold_left (Py.norm_step n) l acc = acc ++ l.
Proof.
  revert acc. induction l as [|c l IH]; intros acc; [by rewrite app_nil_r|].
  intros [Hc Hl]%Forall_cons. simpl.
  rewrite norm_step_plain, IH by done. by rewrite <- app_assoc.
Qed.

(** The names on the stack are not empty and hold no separator at their
    end. *)
Lemma norm_fold_good n (l acc : list string) :
  Forall (fun c => c <> "" /\ Py.endswith_sep c = false) acc ->
  Forall (fun c => Py.endswith_sep c = false) l ->
  Forall (fun c => c <> "" /\ Py.endswith_sep c = false) (fold_left (Py.norm_step n) l acc).
Proof.
  revert acc. induction l as [|c l IH]; intros acc Hacc; [done|].
  intros [Hc Hl]%Forall_cons. simpl. apply IH; [|done].
  unfold Py.norm_step.
  destruct (String.eqb c "") eqn:E; [done|]. apply String.eqb_neq in E.
  destruct (String.eqb c "."); [done|]. simpl.
  destruct (_ || _ || _).
  - apply Forall_app. split; [done|]. by constructor.
  - by apply Forall_take.
Qed.

Lemma prefix_cons a s b t :
  String.prefix (String a s) (String b t) = Ascii.eqb a b && String.prefix s t.
Proof.
  cbn [String.prefix]. destruct (ascii_dec a b) as [->|H].
  - by rewrite Ascii.eqb_refl.
  - apply Ascii.eqb_neq in H. by rewrite H.
Qed.

Lemma prefix_short s t u :
  String.length s <= String.length t -> String.prefix s (t +:+ u) = String.prefix s t.
Proof.
  revert t. induction s as [|a s IH]; intros t Hl.
  { by rewrite !prefix_empty. }
  destruct t as [|b t]; [simpl in Hl; lia|].
  rewrite append_cons, !prefix_cons, IH; [done|]. simpl in Hl. lia.
Qed.

Lemma join2_empty_cases D :
  D <> "" ->
  (Py.endswith_sep D = true /\ Py.join2 D "" = D) \/
  (Py.endswith_sep D = false /\ Py.join2 D "" = D +:+ "/").
Proof.
  intros HD. unfold Py.join2. cbn [Py.startswith String.prefix].
  apply String.eqb_neq in HD. rewrite HD. simpl orb.
  destruct (Py.endswith_sep D); [left|right]; by rewrite ?append_empty_r.
Qed.

Lemma initial_slashes_join D rel :
  Py.startswith D "/" = true -> plain_rel rel = true ->
  Py.initial_slashes (Py.join2 D "" +:+ rel) = Py.initial_slashes D /\
  (Py.initial_slashes D = 1 \/ Py.initial_slashes D = 2).
Proof.
  intros HD Hrel.
  assert (exists c r, rel = String c r /\ Ascii.eqb "/" c = false) as (c & r & -> & Hc).
  { pose proof (plain_rel_relative _ Hrel) as Hr.
    destruct rel as [|c r]; [by apply plain_rel_not_empty in Hrel|].
    exists c, r. split; [done|].
    rewrite startswith_sep_cons in Hr. by rewrite Ascii.eqb_sym. }
  clear Hrel.
  assert (exists x, Py.join2 D "" = D +:+ x /\ (x = "" \/ x = "/") /\
            (x = "" -> Py.endswith_sep D = true) /\
            (x = "/" -> Py.endswith_sep D = false)) as (x & -> & Hx & Hx1 & Hx2).
  { destruct (join2_empty_cases D) as [[? ->]|[? ->]]; [by intros ->|..].
    - exists "". rewrite append_empty_r. repeat split; auto. done.
    - exists "/". repeat split; auto. done. }
  rewrite append_assoc. unfold Py.initial_slashes, Py.startswith in *.
  destruct D as [|a D]; [done|].
  rewrite prefix_cons, prefix_empty, andb_true_r in HD.
  apply ascii_eqb_true in HD as <-.
  destruct D as [|b D].
  { destruct Hx as [->| ->]; [|by specialize (Hx2 eq_refl)].
    change ("/" +:+ "" +:+ String c r) with (String "/" (String c r)).
    rewrite !prefix_cons, !prefix_empty, Hc. auto. }
  destruct D as [|d D].
  { destruct (Ascii.eqb "/" b) eqn:Eb.
    - apply ascii_eqb_true in Eb as <-.
      destruct Hx as [->| ->]; [|by specialize (Hx2 eq_refl)].
      change ("//" +:+ "" +:+ String c r) with (String "/" (String "/" (String c r))).
      rewrite !prefix_cons, !prefix_empty, Hc. auto.
    - rewrite !append_cons, !prefix_cons, Eb. auto. }
  rewrite !prefix_short by (simpl; lia).
  rewrite !prefix_cons, !prefix_empty.
  destruct (Ascii.eqb "/" b), (Ascii.eqb "/" d); auto.
Qed.

Lemma plain_rel_Forall rel :
  plain_rel rel = true -> Forall (fun c => plain c = true) (Py.split_sep "" rel).
Proof. apply forallb_Forall. Qed.

(** The stack of the path of a plain relative name below a directory is
    the stack of the directory followed by the names of the relative
    name. *)
Lemma norm_stack_join n D rel :
  D <> "" -> plain_rel rel = true ->
  fold_left (Py.norm_step n) (Py.split_sep "" (Py.join2 D "" +:+ rel)) [] =
  fold_left (Py.norm_step n) (Py.split_sep "" D) [] ++ Py.split_sep "" rel.
Proof.
  intros HD Hrel.
  destruct (join2_empty_cases D HD) as [[E ->]|[E ->]].
  - apply endswith_sep_inv in E as [D0 ->].
    rewrite append_assoc.
    change ("/" +:+ rel) with (String "/" rel).
    change (D0 +:+ "/") with (D0 +:+ String "/" "").
    rewrite !split_sep_append_sep, !fold_left_app.
    change (Py.split_sep "" "") with [""]. cbn [fold_left].
    change (Py.norm_step n ?acc "") with acc.
    by apply norm_fold_plain, plain_rel_Forall.
  - rewrite append_assoc.
    change ("/" +:+ rel) with (String "/" rel).
    rewrite split_sep_append_sep, fold_left_app.
    by apply norm_fold_plain, plain_rel_Forall.
Qed.

(** Normalising the path of a plain relative name below an absolute
    directory: the normalised directory, a separator and the name. *)
Lemma normpath_join2 D rel :
  Py.startswith D "/" = true -> plain_rel rel = true ->
  Py.normpath (Py.join2 D rel) = Py.join2 (Py.normpath D) "" +:+ rel.
Proof.
  intros HD Hrel.
  assert (D <> "") as HDne by (by intros ->).
  pose proof (plain_rel_not_empty _ Hrel) as Hne.
  rewrite join2_relative by by apply plain_rel_relative.
  unfold Py.normpath.
  rewrite eqb_append_empty by done.
  apply String.eqb_neq in HDne as HDe. rewrite HDe.
  destruct (initial_slashes_join D rel HD Hrel) as [-> Hn].
  rewrite norm_stack_join by done.
  set (st := fold_left (Py.norm_step (Py.initial_slashes D)) (Py.split_sep "" D) []).
  assert (Forall (fun c => c <> "" /\ Py.endswith_sep c = false) st) as Hst.
  { apply norm_fold_good; [constructor|]. by apply split_sep_no_sep. }
  assert (String.concat "/" (Py.split_sep "" rel) = rel) as Hcat.
  { by rewrite concat_split_sep. }
  destruct (decide (st = [])) as [->|Hnil].
  - rewrite app_nil_l, Hcat. cbn [String.concat].
    destruct Hn as [-> | ->].
    + change ("/" +:+ "") with "/". rewrite eqb_append_empty by done. done.
    + change ("//" +:+ "") with "//". rewrite eqb_append_empty by done. done.
  - rewrite concat_app by (done || apply split_sep_not_nil). rewrite Hcat.
    pose proof (concat_endswith st Hnil Hst) as He.
    assert (String.concat "/" st <> "") as Hc.
    { apply concat_not_empty; [done|]. eapply Forall_impl; [done|]. by intros ? [? _]. }
    assert (forall p, p <> "" -> Py.join2 (p +:+ String.concat "/" st) "" =
              p +:+ String.concat "/" st +:+ "/") as Hj.
    { intros p Hp.
      destruct (join2_empty_cases (p +:+ String.concat "/" st)) as [[E _]|[_ ->]].
      - by intros [? _]%append_eq_empty.
      - by rewrite endswith_sep_append, He in E.
      - by rewrite append_assoc. }
    destruct Hn as [-> | ->].
    + rewrite !eqb_append_empty by (done || by intros [? _]%append_eq_empty).
      rewrite Hj by done. by rewrite !append_assoc.
    + rewrite !eqb_append_empty by (done || by intros [? _]%append_eq_empty).
      rewrite Hj by done. by rewrite !append_assoc.
Qed.

End NormpathFacts.

(** ** The loop of copy *)

Section CopyFacts.
Implicit Types (X Y files : gmap string Conan.File) (rel p k : string).

Lemma elem_of_keys files k : k ∈ (map_to_list files).*1 <-> is_Some (files !! k).
Proof.
  rewrite list_elem_of_fmap. split.
  - intros ([k' f] & -> & H%elem_of_map_to_list). by exists f.
  - intros [f H]. exists (k, f). split; [done|]. by apply elem_of_map_to_list.
Qed.

Lemma blocked_true files p :
  Conan.blocked files p = true <->
  exists k, is_Some (files !! k) /\ Py.startswith p (k +:+ "/") = true.
Proof. unfold Conan.blocked. rewrite existsb_elem_of. by setoid_rewrite elem_of_keys. Qed.

Lemma is_dir_true files p :
  Conan.is_dir files p = true <->
  exists k, is_Some (files !! k) /\ Py.startswith k (Py.join2 p "") = true.
Proof. unfold Conan.is_dir. rewrite existsb_elem_of. by setoid_rewrite elem_of_keys. Qed.

Lemma bool_eq_iff (a b : bool) : (a = true <-> b = true) -> a = b.
Proof. destruct a, b; intuition congruence. Qed.

Lemma blocked_insert files K v p :
  Conan.blocked (<[K := v]> files) p =
  Conan.blocked files p || Py.startswith p (K +:+ "/").
Proof.
  apply bool_eq_iff. rewrite orb_true_iff, !blocked_true. split.
  - intros (k & Hk & Hp). destruct (decide (k = K)) as [->|Hne]; [by right|].
    left. exists k. by rewrite lookup_insert_ne in Hk.
  - intros [(k & Hk & Hp)|Hp].
    + exists k. split; [|done].
      destruct (decide (k = K)) as [->|Hne];
        [by rewrite lookup_insert_eq|by rewrite lookup_insert_ne].
    + exists K. by rewrite lookup_insert_eq.
Qed.

Lemma is_dir_insert files K v p :
  Conan.is_dir (<[K := v]> files) p =
  Conan.is_dir files p || Py.startswith K (Py.join2 p "").
Proof.
  apply bool_eq_iff. rewrite orb_true_iff, !is_dir_true. split.
  - intros (k & Hk & Hp). destruct (decide (k = K)) as [->|Hne]; [by right|].
    left. exists k. by rewrite lookup_insert_ne in Hk.
  - intros [(k & Hk & Hp)|Hp].
    + exists k. split; [|done].
      destruct (decide (k = K)) as [->|Hne];
        [by rewrite lookup_insert_eq|by rewrite lookup_insert_ne].
    + exists K. by rewrite lookup_insert_eq.
Qed.

Lemma prefix_longer s a t : String.prefix (s +:+ String a t) s = false.
Proof.
  induction s as [|b s IH]; [done|].
  rewrite append_cons, prefix_cons, IH. apply andb_false_r.
Qed.

Lemma prefix_longer' s t : t <> "" -> String.prefix (s +:+ t) s = false.
Proof. destruct t; [done|]. intros _. apply prefix_longer. Qed.

Lemma same_file_refl (f : Conan.File) : Conan.same_file f f = true.
Proof. unfold Conan.same_file. by rewrite !Nat.eqb_refl. Qed.

(** The names the walk finds. *)
Lemma elem_of_files_to_copy pattern src_slash dst src_prefix files rel :
  rel ∈ Conan.files_to_copy pattern src_slash dst src_prefix files <->
  is_Some (files !! (src_prefix +:+ rel)) /\
  Conan.selected pattern rel = true /\
  Conan.excluded src_slash dst rel = false.
Proof.
  unfold Conan.files_to_copy. rewrite list_elem_of_omap. split.
  - intros (k & Hk%elem_of_keys & Hsel). unfold Conan.select_file in Hsel.
    destruct (Py.removeprefix src_prefix k) as [rel'|] eqn:P; [|done].
    apply removeprefix_Some in P as ->.
    destruct (Conan.selected pattern rel') eqn:S; [|done].
    destruct (Conan.excluded src_slash dst rel') eqn:E; [done|].
    by injection Hsel as ->.
  - intros (Hk & Hs & He). exists (src_prefix +:+ rel). split; [by apply elem_of_keys|].
    unfold Conan.select_file. by rewrite removeprefix_append, Hs, He.
Qed.


End CopyFacts.

Section BasenameFacts.
Implicit Types rel cur s : string.

Lemma split_sep_relative cur s :
  Py.startswith cur "/" = false ->
  Forall (fun c => Py.startswith c "/" = false) (Py.split_sep cur s).
Proof.
  revert cur. induction s as [|a s IH]; intros cur Hc; simpl.
  { by constructor. }
  destruct (Ascii.eqb a "/") eqn:E.
  - constructor; [done|]. by apply IH.
  - apply IH. destruct cur as [|b cur].
    + change ("" +:+ String a "") with (String a ""). by rewrite startswith_sep_cons.
    + rewrite append_cons, startswith_sep_cons. by rewrite startswith_sep_cons in Hc.
Qed.

(** The last name of a plain relative name is plain and holds no
    separator at either end. *)
Lemma basename_plain rel :
  plain_rel rel = true ->
  Py.basename rel <> "" /\
  Py.startswith (Py.basename rel) "/" = false /\
  Py.endswith_sep (Py.basename rel) = false.
Proof.
  intros H. unfold Py.basename.
  destruct (last (Py.split_sep "" rel)) as [b|] eqn:E.
  - apply last_Some in E as [l E]. simpl.
    pose proof (plain_rel_Forall _ H) as Hp.
    pose proof (split_sep_relative "" rel eq_refl) as Hr.
    pose proof (split_sep_no_sep "" rel eq_refl) as Hs.
    rewrite E in Hp, Hr, Hs.
    apply Forall_app in Hp as [_ [Hp _]%Forall_cons].
    apply Forall_app in Hr as [_ [Hr _]%Forall_cons].
    apply Forall_app in Hs as [_ [Hs _]%Forall_cons].
    split; [|done]. intros ->. done.
  - apply last_None in E. by apply split_sep_not_nil in E.
Qed.

End BasenameFacts.

Section CopyLoop.
Context (SP dst dir DP : string).
Hypothesis Htarget : forall rel,
  plain_rel rel = true ->
  Py.normpath (Py.join2 dir (Py.join2 dst rel)) = DP +:+ rel.
Implicit Types (X Y files : gmap string Conan.File) (rel z p k : string).

Lemma target_no_final_sep rel :
  plain_rel rel = true -> Py.join2 (DP +:+ rel) "" = (DP +:+ rel) +:+ "/".
Proof.
  intros H. destruct (join2_empty_cases (DP +:+ rel)) as [[E _]|[_ E]]; [..|done].
  - intros [_ ?]%append_eq_empty. by eapply plain_rel_not_empty.
  - rewrite endswith_sep_append in E by by apply plain_rel_not_empty.
    by rewrite plain_rel_no_final_sep in E.
Qed.

Lemma inside_shape rel :
  plain_rel rel = true ->
  Py.join2 (DP +:+ rel) (Py.basename rel) = DP +:+ (rel +:+ "/" +:+ Py.basename rel).
Proof.
  intros H. destruct (basename_plain rel H) as (_ & Hb & _).
  rewrite join2_relative, target_no_final_sep by done.
  by rewrite !append_assoc.
Qed.

Lemma inside_no_final_sep rel :
  plain_rel rel = true ->
  Py.join2 (DP +:+ (rel +:+ "/" +:+ Py.basename rel)) "" =
  (DP +:+ (rel +:+ "/" +:+ Py.basename rel)) +:+ "/".
Proof.
  intros H. destruct (basename_plain rel H) as (Hb & _ & He).
  set (q := DP +:+ (rel +:+ "/" +:+ Py.basename rel)).
  destruct (join2_empty_cases q) as [[E _]|[_ E]].
  - unfold q. rewrite <- !append_assoc. intros [_ E]%append_eq_empty. by apply Hb.
  - unfold q in E. rewrite <- !append_assoc in E.
    rewrite endswith_sep_append in E by done. by rewrite He in E.
  - by rewrite E.
Qed.

(** A round of the loop on a plain relative name, with the paths written
    out. *)
Lemma copy_file_plain X rel :
  plain_rel rel = true ->
  Conan.copy_file SP dst dir X rel =
  let inside := DP +:+ (rel +:+ "/" +:+ Py.basename rel) in
  if Conan.blocked X (DP +:+ rel) then
    (X, Some (Conan.OSError "makedirs: a file is in the way"))
  else
    match X !! (SP +:+ rel) with
    | None => (X, Some (Conan.OSError "No such file or directory"))
    | Some f =>
        if Conan.is_dir X (DP +:+ rel) then
          if String.eqb inside (SP +:+ rel) then
            (X, Some (Conan.OSError "SameFileError"))
          else if Conan.is_dir X inside then
            (X, Some (Conan.OSError "Is a directory"))
          else (<[inside := f]> X, None)
        else
          match X !! (DP +:+ rel) with
          | Some g =>
              if Conan.same_file f g then (X, None)
              else (<[DP +:+ rel := f]> X, None)
          | None => (<[DP +:+ rel := f]> X, None)
          end
    end.
Proof.
  intros H. unfold Conan.copy_file. by rewrite Htarget, inside_shape.
Qed.

(** A round leaves the files as they are, or writes the source file to
    one of its two places below the destination. *)
Lemma copy_file_writes X rel Y e :
  plain_rel rel = true ->
  Conan.copy_file SP dst dir X rel = (Y, e) ->
  Y = X \/
  e = None /\
  exists f z, X !! (SP +:+ rel) = Some f /\ places rel z /\ Y = <[DP +:+ z := f]> X.
Proof.
  intros H. rewrite copy_file_plain by done. cbv zeta.
  destruct (Conan.blocked X _); [intros [= <- _]; by left|].
  destruct (X !! (SP +:+ rel)) as [f|] eqn:Ef; [|intros [= <- _]; by left].
  destruct (Conan.is_dir X (DP +:+ rel)).
  - destruct (String.eqb _ _); [intros [= <- _]; by left|].
    destruct (Conan.is_dir X _); [intros [= <- _]; by left|].
    intros [= <- <-]. right. split; [done|].
    exists f, (rel +:+ "/" +:+ Py.basename rel).
    split; [done|]. split; [by right|done].
  - destruct (X !! (DP +:+ rel)) as [g|] eqn:Eg.
    + destruct (Conan.same_file f g); intros [= <- <-]; [by left|].
      right. split; [done|]. exists f, rel. split; [done|]. split; [by left|done].
    + intros [= <- <-]. right. split; [done|].
      exists f, rel. split; [done|]. split; [by left|done].
Qed.

(** A round that returned changes nothing when it is run again. *)
Lemma copy_file_again X rel Y :
  plain_rel rel = true ->
  Conan.copy_file SP dst dir X rel = (Y, None) ->
  Conan.copy_file SP dst dir Y rel = (Y, None).
Proof.
  intros H. rewrite !copy_file_plain by done. cbv zeta.
  set (T := DP +:+ rel). set (I := DP +:+ (rel +:+ "/" +:+ Py.basename rel)).
  destruct (Conan.blocked X T) eqn:Eb; [done|].
  destruct (X !! (SP +:+ rel)) as [f|] eqn:Ef; [|done].
  destruct (Conan.is_dir X T) eqn:Ed.
  - destruct (String.eqb I (SP +:+ rel)) eqn:Es; [done|].
    destruct (Conan.is_dir X I) eqn:Ei; [done|].
    intros [= <-].
    apply String.eqb_neq in Es as Hne.
    rewrite blocked_insert, Eb. unfold Py.startswith.
    replace (I +:+ "/") with (T +:+ ("/" +:+ Py.basename rel +:+ "/"))
      by (unfold T, I; by rewrite !append_assoc).
    rewrite prefix_longer' by done. simpl orb.
    rewrite lookup_insert_ne, Ef by done.
    rewrite is_dir_insert. fold T. rewrite Ed. simpl orb. rewrite ?Es.
    rewrite is_dir_insert, Ei. fold I.
    unfold I at 2. rewrite inside_no_final_sep by done. fold I.
    unfold Py.startswith. rewrite prefix_longer. simpl orb.
    by rewrite insert_insert_eq.
  - assert (Conan.copy_file SP dst dir (<[T := f]> X) rel = (<[T := f]> X, None)) as Hw.
    { rewrite copy_file_plain by done. cbv zeta. fold T I.
      rewrite blocked_insert, Eb. unfold Py.startswith.
      rewrite prefix_longer. simpl orb.
      assert (<[T := f]> X !! (SP +:+ rel) = Some f) as ->.
      { destruct (decide (T = SP +:+ rel)) as [<-|Hne];
          [by rewrite lookup_insert_eq|by rewrite lookup_insert_ne]. }
      rewrite is_dir_insert, Ed. unfold T at 2.
      rewrite target_no_final_sep by done. fold T.
      unfold Py.startswith. rewrite prefix_longer. simpl orb.
      by rewrite lookup_insert_eq, same_file_refl. }
    rewrite copy_file_plain in Hw by done. cbv zeta in Hw. fold T I in Hw.
    destruct (X !! T) as [g|] eqn:Eg.
    + destruct (Conan.same_file f g) eqn:Ec; intros [= <-]; [|exact Hw].
      by rewrite Eb, Ef, Ed, Eg, Ec.
    + intros [= <-]. exact Hw.
Qed.

(** A file put at a path that has nothing to do with a relative name
    does not change the round of that name. *)
Lemma copy_file_insert X rel K v :
  plain_rel rel = true ->
  Py.startswith (DP +:+ rel) (K +:+ "/") = false ->
  K <> SP +:+ rel ->
  (forall z, places rel z -> K <> DP +:+ z) ->
  (forall z, places rel z -> Py.startswith K ((DP +:+ z) +:+ "/") = false) ->
  Conan.copy_file SP dst dir (<[K := v]> X) rel =
  (<[K := v]> (Conan.copy_file SP dst dir X rel).1,
   (Conan.copy_file SP dst dir X rel).2).
Proof.
  intros H H1 H2 H3 H4. rewrite !copy_file_plain by done. cbv zeta.
  set (T := DP +:+ rel). set (I := DP +:+ (rel +:+ "/" +:+ Py.basename rel)).
  assert (K <> T) as HT by (apply H3; by left).
  assert (K <> I) as HI by (apply H3; by right).
  rewrite blocked_insert. fold T in H1. rewrite H1, orb_false_r.
  destruct (Conan.blocked X T); [done|].
  rewrite lookup_insert_ne by done.
  destruct (X !! (SP +:+ rel)) as [f|]; [|done].
  rewrite is_dir_insert. unfold T at 2. rewrite target_no_final_sep by done.
  rewrite (H4 rel) by by left. rewrite orb_false_r. fold T.
  destruct (Conan.is_dir X T).
  - destruct (String.eqb I (SP +:+ rel)); [done|].
    rewrite is_dir_insert. unfold I at 2. rewrite inside_no_final_sep by done.
    rewrite (H4 (rel +:+ "/" +:+ Py.basename rel)) by by right.
    rewrite orb_false_r. fold I.
    destruct (Conan.is_dir X I); [done|].
    simpl. by rewrite insert_insert_ne.
  - rewrite lookup_insert_ne by done.
    destruct (X !! T) as [g|].
    + destruct (Conan.same_file f g); [done|]. simpl. by rewrite insert_insert_ne.
    + simpl. by rewrite insert_insert_ne.
Qed.

(** Where a round changes nothing and raises nothing, one of the two
    places holds a file that [copy] takes for the source file. *)
Lemma copy_file_settled_holds X rel f :
  plain_rel rel = true ->
  Conan.copy_file SP dst dir X rel = (X, None) ->
  X !! (SP +:+ rel) = Some f ->
  exists z g, places rel z /\ X !! (DP +:+ z) = Some g /\ Conan.same_file f g = true.
Proof.
  intros H. rewrite copy_file_plain by done. cbv zeta.
  destruct (Conan.blocked X _); [done|].
  intros E Hf. rewrite Hf in E.
  destruct (Conan.is_dir X (DP +:+ rel)).
  - destruct (String.eqb _ _); [done|].
    destruct (Conan.is_dir X _); [done|]. injection E as E.
    exists (rel +:+ "/" +:+ Py.basename rel), f. split; [by right|].
    split; [|apply same_file_refl]. rewrite <- E. apply lookup_insert_eq.
  - destruct (X !! (DP +:+ rel)) as [g|] eqn:Eg.
    + destruct (Conan.same_file f g) eqn:Es.
      * exists rel, g. split; [by left|done].
      * injection E as E. exists rel, f. split; [by left|].
        split; [|apply same_file_refl]. rewrite <- E. apply lookup_insert_eq.
    + injection E as E. exists rel, f. split; [by left|].
      split; [|apply same_file_refl]. rewrite <- E. apply lookup_insert_eq.
Qed.

End CopyLoop.

Section CopyRuns.
Context (SP dst dir DP : string).
Hypothesis Htarget : forall rel,
  plain_rel rel = true ->
  Py.normpath (Py.join2 dir (Py.join2 dst rel)) = DP +:+ rel.
Hypothesis Hapart1 : String.prefix SP DP = false.
Hypothesis Hapart2 : String.prefix DP SP = false.
(** The relative names of the files below the source directory: plain
    names, none of them below another. *)
Context (L : string -> Prop).
Hypothesis HLplain : forall rel, L rel -> plain_rel rel = true.
Hypothesis HLtree : forall rel rel2 r, L rel -> L rel2 -> rel <> rel2 +:+ "/" +:+ r.
Implicit Types (X Y files : gmap string Conan.File) (rel z p k : string).

Lemma below_distinct rel rel2 u v :
  L rel -> L rel2 -> rel <> rel2 ->
  rel +:+ "/" +:+ u <> rel2 +:+ "/" +:+ v.
Proof.
  intros H1 H2 Hne E.
  apply append_eq_append in E as [x [[E1 E2]|[E1 E2]]].
  - destruct x as [|a x]; [by rewrite append_empty_r in E1|].
    rewrite append_cons in E2. injection E2 as <- _.
    by apply (HLtree rel rel2 x).
  - destruct x as [|a x]; [by rewrite append_empty_r in E1|].
    rewrite append_cons in E2. injection E2 as <- _.
    by apply (HLtree rel2 rel x).
Qed.

(** The places of two different names are different, and none lies below
    another. *)
Lemma places_distinct rel rel2 z z2 :
  L rel -> L rel2 -> rel <> rel2 -> places rel z -> places rel2 z2 ->
  z <> z2 /\ (forall r, z <> z2 +:+ "/" +:+ r).
Proof.
  intros H1 H2 Hne [->| ->] [->| ->].
  - split; [done|]. intros r. by apply HLtree.
  - split; [by apply HLtree|]. intros r. rewrite !append_assoc. by apply HLtree.
  - split.
    + intros E. symmetry in E. by apply HLtree in E.
    + intros r. by apply below_distinct.
  - split; [by apply below_distinct|].
    intros r. rewrite !append_assoc.
    change ("/" +:+ Py.basename rel2 +:+ "/" +:+ r)
      with ("/" +:+ (Py.basename rel2 +:+ "/" +:+ r)).
    by apply below_distinct.
Qed.

(** The round of one name does not change the round of another. *)
Lemma copy_file_other X rel rel2 z2 v :
  L rel -> L rel2 -> rel <> rel2 -> places rel2 z2 ->
  Conan.copy_file SP dst dir (<[DP +:+ z2 := v]> X) rel =
  (<[DP +:+ z2 := v]> (Conan.copy_file SP dst dir X rel).1,
   (Conan.copy_file SP dst dir X rel).2).
Proof.
  intros H1 H2 Hne Hz2.
  apply (copy_file_insert SP dst dir DP Htarget); [by apply HLplain|..].
  - destruct (Py.startswith _ _) eqn:E; [|done].
    apply prefix_true_iff in E as [r E].
    rewrite !append_assoc in E. apply append_inv_head in E.
    by destruct (places_distinct rel rel2 rel z2 H1 H2 Hne (or_introl eq_refl) Hz2) as [_ Hb];
      apply Hb in E.
  - by apply prefix_apart.
  - intros z Hz E. apply append_inv_head in E.
    by destruct (places_distinct rel rel2 z z2 H1 H2 Hne Hz Hz2) as [Ha _].
  - intros z Hz. destruct (Py.startswith _ _) eqn:E; [|done].
    apply prefix_true_iff in E as [r E].
    rewrite !append_assoc in E. apply append_inv_head in E.
    assert (rel2 <> rel) as Hne' by congruence.
    by destruct (places_distinct rel2 rel z2 z H2 H1 Hne' Hz2 Hz) as [_ Hb];
      apply Hb in E.
Qed.

(** A round that changes nothing still changes nothing after the loop
    has gone over other names. *)
Lemma copy_files_keeps_settled (l : list string) X X' e rel :
  (forall r, r ∈ l -> L r) -> L rel ->
  Conan.copy_file SP dst dir X rel = (X, None) ->
  Conan.copy_files SP dst dir l X = (X', e) ->
  Conan.copy_file SP dst dir X' rel = (X', None).
Proof.
  revert X. induction l as [|rel2 l IH]; intros X Hl Hrel Hs; simpl.
  { by intros [= <- _]. }
  assert (L rel2) as H2 by apply Hl, list_elem_of_here.
  destruct (Conan.copy_file SP dst dir X rel2) as [X1 e1] eqn:E1.
  assert (Conan.copy_file SP dst dir X1 rel = (X1, None)) as Hs1.
  { pose proof (copy_file_writes SP dst dir DP Htarget X rel2 X1 e1 (HLplain _ H2) E1)
      as [->|(_ & f & z2 & _ & Hz2 & ->)]; [done|].
    destruct (decide (rel = rel2)) as [->|Hne].
    - rewrite Hs in E1. by injection E1 as <- _.
    - rewrite (copy_file_other X rel rel2) by done. by rewrite Hs. }
  destruct e1 as [e1|].
  - by intros [= <- _].
  - apply IH; [|done|done]. intros r Hr. apply Hl. by apply list_elem_of_further.
Qed.

(** After a loop that returned, the round of every name of the loop
    changes nothing. *)
Lemma copy_files_settles (l : list string) X X' :
  (forall r, r ∈ l -> L r) ->
  Conan.copy_files SP dst dir l X = (X', None) ->
  forall rel, rel ∈ l -> Conan.copy_file SP dst dir X' rel = (X', None).
Proof.
  revert X. induction l as [|rel2 l IH]; intros X Hl; simpl.
  { intros _ rel Hin. by apply elem_of_nil in Hin. }
  assert (L rel2) as H2 by apply Hl, list_elem_of_here.
  assert (forall r, r ∈ l -> L r) as Hl'.
  { intros r Hr. apply Hl. by apply list_elem_of_further. }
  destruct (Conan.copy_file SP dst dir X rel2) as [X1 [e1|]] eqn:E1; [done|].
  intros Hrun rel [->|Hin]%elem_of_cons.
  - apply (copy_files_keeps_settled l X1 X' None); [done|done| |done].
    apply (copy_file_again SP dst dir DP Htarget) with (X := X); [by apply HLplain|done].
  - by apply (IH X1).
Qed.

(** The loop writes below the destination only. *)
Lemma copy_files_frame (l : list string) X X' e k :
  (forall r, r ∈ l -> L r) ->
  Conan.copy_files SP dst dir l X = (X', e) ->
  String.prefix DP k = false ->
  X' !! k = X !! k.
Proof.
  revert X. induction l as [|rel2 l IH]; intros X Hl; simpl.
  { by intros [= <- _]. }
  assert (L rel2) as H2 by apply Hl, list_elem_of_here.
  destruct (Conan.copy_file SP dst dir X rel2) as [X1 e1] eqn:E1.
  intros Hrun Hk.
  assert (X1 !! k = X !! k) as <-.
  { pose proof (copy_file_writes SP dst dir DP Htarget X rel2 X1 e1 (HLplain _ H2) E1)
      as [->|(_ & f & z2 & _ & Hz2 & ->)]; [done|].
    apply lookup_insert_ne. intros <-. by rewrite prefix_append in Hk. }
  destruct e1 as [e1|]; [by injection Hrun as <- _|].
  apply (IH X1); [|done|done]. intros r Hr. apply Hl. by apply list_elem_of_further.
Qed.

(** Every file found after the loop was there before, or is a source
    file written to one of its places. *)
Lemma copy_files_only (l : list string) X X' e p f :
  (forall r, r ∈ l -> L r) ->
  Conan.copy_files SP dst dir l X = (X', e) ->
  X' !! p = Some f ->
  X !! p = Some f \/
  exists rel z, rel ∈ l /\ X !! (SP +:+ rel) = Some f /\ places rel z /\ p = DP +:+ z.
Proof.
  revert X. induction l as [|rel2 l IH]; intros X Hl; simpl.
  { intros [= <- _] Hp. by left. }
  assert (L rel2) as H2 by apply Hl, list_elem_of_here.
  assert (forall r, r ∈ l -> L r) as Hl'.
  { intros r Hr. apply Hl. by apply list_elem_of_further. }
  destruct (Conan.copy_file SP dst dir X rel2) as [X1 e1] eqn:E1.
  pose proof (copy_file_writes SP dst dir DP Htarget X rel2 X1 e1 (HLplain _ H2) E1)
    as [->|(-> & f2 & z2 & Hf2 & Hz2 & ->)].
  - destruct e1 as [e1|].
    + intros [= <- _] Hp. by left.
    + intros Hrun Hp. destruct (IH X Hl' Hrun Hp) as [?|(rel & z & Hin & ?)]; [by left|].
      right. exists rel, z. split; [by apply list_elem_of_further|done].
  - intros Hrun Hp.
    destruct (IH _ Hl' Hrun Hp) as [Hx|(rel & z & Hin & Hs & Hz & ->)].
    + destruct (decide (p = DP +:+ z2)) as [->|Hne].
      * rewrite lookup_insert_eq in Hx. injection Hx as ->.
        right. exists rel2, z2. split; [apply list_elem_of_here|done].
      * rewrite lookup_insert_ne in Hx by done. by left.
    + right. exists rel, z. split; [by apply list_elem_of_further|].
      rewrite lookup_insert_ne in Hs by by apply prefix_apart. done.
Qed.

End CopyRuns.

(** ** The copy of package *)

Section PackageCopyFacts.
Implicit Types (self : Conan.ConanFile) (w : Conan.World) (rel : string).

Lemma join2_onto s t b :
  t <> "" -> Py.endswith_sep t = false -> Py.startswith b "/" = false ->
  Py.join2 (s +:+ t) b = s +:+ (t +:+ "/" +:+ b).
Proof.
  intros Ht Hs Hb. unfold Py.join2.
  rewrite Hb, eqb_append_empty, endswith_sep_append, Hs by done.
  simpl. by rewrite append_assoc.
Qed.

(** The destination of the copy ends in include/fossil/sys, whatever the
    package folder is. *)
Lemma package_dst_shape pkg :
  Py.os_path_join pkg ["include"; "fossil"; "sys"] =
  Py.join2 pkg "" +:+ "include/fossil/sys".
Proof.
  unfold Py.os_path_join. simpl.
  rewrite (join2_relative pkg "include") by done.
  by rewrite !join2_onto.
Qed.

Lemma package_dst_is_not_src pkg :
  String.eqb "code/logic/fossil/sys" (Py.os_path_join pkg ["include"; "fossil"; "sys"]) = false.
Proof.
  apply String.eqb_neq. rewrite package_dst_shape. intros H.
  assert (String.length (Py.join2 pkg "") = 3) as L.
  { apply (f_equal String.length) in H. rewrite length_append in H. simpl in H. lia. }
  destruct (Py.join2 pkg "") as [|a [|b [|c [|d x]]]]; try done.
Qed.

Lemma package_dst_absolute pkg :
  Py.startswith pkg "/" = true ->
  Py.startswith (Py.os_path_join pkg ["include"; "fossil"; "sys"]) "/" = true.
Proof.
  intros Ha. rewrite package_dst_shape. unfold Py.startswith in *.
  apply prefix_true_iff in Ha as [r ->]. apply prefix_true_iff.
  assert (exists x, Py.join2 ("/" +:+ r) "" = ("/" +:+ r) +:+ x) as [x ->].
  { destruct (join2_empty_cases ("/" +:+ r)) as [[_ ->]|[_ ->]]; [done|..].
    - exists "". by rewrite append_empty_r.
    - by eexists. }
  eexists. by rewrite !append_assoc.
Qed.

Lemma startswith_join2 a b :
  Py.startswith a "/" = true -> Py.startswith b "/" = false ->
  Py.startswith (Py.join2 a b) "/" = true.
Proof.
  intros Ha Hb. rewrite join2_relative by done.
  destruct a as [|c a]; [done|].
  destruct (join2_empty_cases (String c a)) as [[_ ->]|[_ ->]]; [done|..];
    rewrite ?append_cons, startswith_sep_cons; by rewrite startswith_sep_cons in Ha.
Qed.

Lemma normpath_not_empty s : Py.normpath s <> "".
Proof.
  unfold Py.normpath. destruct (String.eqb s ""); [done|].
  destruct (String.eqb _ "") eqn:E; [done|]. by apply String.eqb_neq in E.
Qed.

Lemma join2_final_sep s : s <> "" -> exists s0, Py.join2 s "" = s0 +:+ "/".
Proof.
  intros Hs. destruct (join2_empty_cases s Hs) as [[E ->]|[_ ->]].
  - by apply endswith_sep_inv.
  - by exists s.
Qed.

(** With an absolute package folder, the path the copy writes a plain
    relative name to is that name below the normalised destination. *)
Lemma package_target self w rel :
  Py.startswith (Conan.package_folder self) "/" = true ->
  plain_rel rel = true ->
  Py.normpath
    (Py.join2 (Conan.cwd w)
       (Py.join2 (Py.os_path_join (Conan.package_folder self) ["include"; "fossil"; "sys"]) rel)) =
  destination self w +:+ rel.
Proof.
  intros Ha Hrel.
  pose proof (package_dst_absolute _ Ha) as Hd.
  pose proof (plain_rel_relative _ Hrel) as Hr.
  rewrite (join2_absolute _ _ (startswith_join2 _ _ Hd Hr)).
  rewrite normpath_join2 by done.
  unfold destination, headers_dst, package_dir. by rewrite (join2_absolute _ _ Hd).
Qed.

Lemma well_formed_key (files : gmap string Conan.File) k :
  well_formed files = true -> is_Some (files !! k) ->
  canonical k = true /\ Conan.blocked files k = false.
Proof.
  unfold well_formed. rewrite forallb_Forall, Forall_forall.
  intros H Hk%elem_of_keys. apply H in Hk.
  apply andb_prop in Hk as [? ?%negb_true_iff]. done.
Qed.

(** The files below the header directory have plain relative names, none
    of them below another. *)
Lemma header_names_plain w rel :
  well_formed (Conan.fs w) = true ->
  is_Some (Conan.fs w !! (headers_dir w +:+ rel)) ->
  plain_rel rel = true.
Proof.
  intros Hwf Hk. apply (well_formed_key _ _ Hwf) in Hk as [Hc _].
  destruct (join2_final_sep (Py.normpath (Py.join2 (Conan.cwd w) "code/logic/fossil/sys")))
    as [s0 Hs0]; [apply normpath_not_empty|].
  unfold headers_dir in Hc. rewrite Hs0, append_assoc in Hc.
  change ("/" +:+ rel) with (String "/" rel) in Hc.
  unfold canonical in Hc.
  destruct (s0 +:+ String "/" rel) as [|c rest] eqn:E; [done|].
  apply andb_prop in Hc as [->%ascii_eqb_true Hp].
  apply plain_rel_Forall in Hp.
  assert (Py.split_sep "" (s0 +:+ String "/" rel) = "" :: Py.split_sep "" rest) as Hsp.
  { by rewrite E. }
  rewrite split_sep_append_sep in Hsp.
  unfold plain_rel. apply forallb_Forall.
  destruct (Py.split_sep "" s0) as [|x l] eqn:El; [by apply split_sep_not_nil in El|].
  injection Hsp as _ Hsp. rewrite <- Hsp in Hp.
  by apply Forall_app in Hp as [_ ?].
Qed.

Lemma header_names_tree w rel rel2 r :
  well_formed (Conan.fs w) = true ->
  is_Some (Conan.fs w !! (headers_dir w +:+ rel)) ->
  is_Some (Conan.fs w !! (headers_dir w +:+ rel2)) ->
  rel <> rel2 +:+ "/" +:+ r.
Proof.
  intros Hwf Hk Hk2 ->. apply (well_formed_key _ _ Hwf) in Hk as [_ Hb].
  assert (Conan.blocked (Conan.fs w) (headers_dir w +:+ rel2 +:+ "/" +:+ r) = true) as Hb'.
  { apply blocked_true. exists (headers_dir w +:+ rel2). split; [done|].
    unfold Py.startswith. apply prefix_true_iff. exists r. by rewrite !append_assoc. }
  congruence.
Qed.

(** The copy of [package] is one call, and on the files it is the loop of
    [copy] over the names found below the header directory. *)
Lemma package_copy_is_call ext self w :
  FossilSysConan.package_copy ext self w =
  Conan.call ext
    (Conan.copy self "*.h" "code/logic/fossil/sys"
       (Py.os_path_join (Conan.package_folder self) ["include"; "fossil"; "sys"])) self w.
Proof. reflexivity. Qed.

Lemma package_copy_effect ext self w :
  let dst := Py.os_path_join (Conan.package_folder self) ["include"; "fossil"; "sys"] in
  Conan.effect ext (Conan.copy self "*.h" "code/logic/fossil/sys" dst)
    (Conan.cwd w) (Conan.fs w) =
  Conan.copy_files (headers_dir w) dst (Conan.cwd w)
    (Conan.files_to_copy "*.h" "code/logic/fossil/sys/" dst (headers_dir w) (Conan.fs w))
    (Conan.fs w).
Proof.
  intros dst. unfold Conan.effect, Conan.copy_model.
  unfold dst at 1. by rewrite package_dst_is_not_src.
Qed.

Lemma package_copy_fs ext self w :
  let dst := Py.os_path_join (Conan.package_folder self) ["include"; "fossil"; "sys"] in
  Conan.fs (world_of (FossilSysConan.package_copy ext self w)) =
  (Conan.copy_files (headers_dir w) dst (Conan.cwd w)
     (Conan.files_to_copy "*.h" "code/logic/fossil/sys/" dst (headers_dir w) (Conan.fs w))
     (Conan.fs w)).1.
Proof. intros dst. by rewrite package_copy_is_call, fs_call, package_copy_effect. Qed.

Lemma package_copy_returned ext self w :
  let dst := Py.os_path_join (Conan.package_folder self) ["include"; "fossil"; "sys"] in
  returned (FossilSysConan.package_copy ext self w) =
  bool_decide
    ((Conan.copy_files (headers_dir w) dst (Conan.cwd w)
        (Conan.files_to_copy "*.h" "code/logic/fossil/sys/" dst (headers_dir w) (Conan.fs w))
        (Conan.fs w)).2 = None).
Proof. intros dst. by rewrite package_copy_is_call, returned_call, package_copy_effect. Qed.


End PackageCopyFacts.

Lemma rooted_absolute path : rooted path = true -> Py.startswith path "/" = true.
Proof.
  unfold rooted, Py.initial_slashes.
  destruct (Py.startswith path "/"); [done|]. by intros ?%Nat.eqb_eq.
Qed.

Lemma excluded_absolute dst rel :
  Py.startswith dst "/" = true ->
  Conan.excluded "code/logic/fossil/sys/" dst rel = false.
Proof.
  destruct dst as [|c d]; [done|]. rewrite startswith_sep_cons.
  intros ->%ascii_eqb_true. reflexivity.
Qed.

(** The copy reads the recipe object for its package folder, and the
    world for its working directory and files. *)
Lemma package_copy_reads ext self1 self2 w1 w2 :
  Conan.package_folder self1 = Conan.package_folder self2 ->
  Conan.cwd w1 = Conan.cwd w2 -> Conan.fs w1 = Conan.fs w2 ->
  Conan.fs (world_of (FossilSysConan.package_copy ext self1 w1)) =
  Conan.fs (world_of (FossilSysConan.package_copy ext self2 w2)) /\
  returned (FossilSysConan.package_copy ext self1 w1) =
  returned (FossilSysConan.package_copy ext self2 w2).
Proof.
  intros Hp Hc Hf. rewrite !package_copy_fs, !package_copy_returned.
  unfold headers_dir. by rewrite Hp, Hc, Hf.
Qed.


Section PackageCopyRuns.
Context (ext : Conan.Tools) (self : Conan.ConanFile) (w : Conan.World).
Hypothesis Hwf : well_formed (Conan.fs w) = true.
Hypothesis Habs : Py.startswith (Conan.package_folder self) "/" = true.


Lemma names_found rel : rel ∈ header_names self w (Conan.fs w) -> header_found w rel.
Proof. by intros [? _]%elem_of_files_to_copy. Qed.

(** The copy writes below the destination only. *)
Lemma package_copy_frame p :
  Py.startswith p (destination self w) = false ->
  Conan.fs (world_of (FossilSysConan.package_copy ext self w)) !! p = Conan.fs w !! p.
Proof.
  intros Hp. rewrite package_copy_fs. fold (package_dst self). fold (header_names self w (Conan.fs w)).
  destruct (Conan.copy_files _ _ _ _ _) as [X' e] eqn:E.
  eapply (copy_files_frame _ _ _ (destination self w)
            (fun rel => package_target self w rel Habs) (header_found w));
    [|apply names_found|exact E|exact Hp].
  intros rel. by apply header_names_plain.
Qed.

(** Every file (header_found w) after the copy was there before, or is a header
    written to one of its places. *)
Lemma package_copy_only p f :
  apart (headers_dir w) (destination self w) ->
  Conan.fs (world_of (FossilSysConan.package_copy ext self w)) !! p = Some f ->
  Conan.fs w !! p = Some f \/
  exists rel z, Conan.selected "*.h" rel = true /\
    Conan.fs w !! (headers_dir w +:+ rel) = Some f /\
    places rel z /\ p = destination self w +:+ z.
Proof.
  intros [Ha1 Ha2]. rewrite package_copy_fs. fold (package_dst self). fold (header_names self w (Conan.fs w)).
  destruct (Conan.copy_files _ _ _ _ _) as [X' e] eqn:E. simpl. intros Hp.
  destruct (copy_files_only _ _ _ (destination self w)
              (fun rel => package_target self w rel Habs) Ha1 Ha2 (header_found w)
              (fun rel => header_names_plain w rel Hwf)
              _ _ _ _ _ _ names_found E Hp) as [?|(rel & z & Hin & ?)]; [by left|].
  right. exists rel, z. split; [|done].
  by apply elem_of_files_to_copy in Hin as (_ & ? & _).
Qed.


(** After a copy that returned, every header has, at one of its places
    below the destination, a file that [copy] takes for it. *)
Lemma package_copy_delivers rel f :
  apart (headers_dir w) (destination self w) ->
  returned (FossilSysConan.package_copy ext self w) = true ->
  Conan.selected "*.h" rel = true ->
  Conan.fs w !! (headers_dir w +:+ rel) = Some f ->
  exists z g, places rel z /\
    Conan.fs (world_of (FossilSysConan.package_copy ext self w))
      !! (destination self w +:+ z) = Some g /\
    Conan.same_file f g = true.
Proof.
  intros [Ha1 Ha2] Hret Hs Hf.
  rewrite package_copy_returned in Hret. fold (package_dst self) in Hret. fold (header_names self w (Conan.fs w)) in Hret.
  apply bool_decide_eq_true in Hret.
  rewrite package_copy_fs. fold (package_dst self). fold (header_names self w (Conan.fs w)).
  destruct (Conan.copy_files (headers_dir w) (package_dst self) (Conan.cwd w) (header_names self w (Conan.fs w)) (Conan.fs w))
    as [X' e] eqn:E.
  simpl in Hret. subst e. simpl.
  assert (rel ∈ header_names self w (Conan.fs w)) as Hin.
  { apply elem_of_files_to_copy. split; [by eexists|]. split; [done|].
    apply excluded_absolute. by apply package_dst_absolute. }
  apply (copy_file_settled_holds (headers_dir w) (package_dst self) (Conan.cwd w) (destination self w)
           (fun rel => package_target self w rel Habs)).
  - apply (header_names_plain w); [done|by eexists].
  - by apply (copy_files_settles _ _ _ (destination self w)
             (fun rel => package_target self w rel Habs) Ha1 Ha2 (header_found w)
             (fun rel => header_names_plain w rel Hwf)
             (fun rel rel2 r => header_names_tree w rel rel2 r Hwf)
             (header_names self w (Conan.fs w)) (Conan.fs w) X' names_found E).
  - rewrite (copy_files_frame _ _ _ (destination self w)
               (fun rel => package_target self w rel Habs) (header_found w)
               (fun rel => header_names_plain w rel Hwf)
               _ _ _ _ _ names_found E); [done|].
    destruct (String.prefix _ _) eqn:Ep; [|done].
    apply prefix_true_iff in Ep as [x Ep]. symmetry in Ep.
    by apply prefix_apart in Ep.
Qed.

End PackageCopyRuns.


(** ** package: the copy call *)







(** ** The patterns of the recipe *)

Section PatternFacts.
Implicit Types s t name stem rel : string.

Lemma lower_append s t : Py.lower (s +:+ t) = Py.lower s +:+ Py.lower t.
Proof. induction s as [|a s IH]; [done|]. rewrite append_cons. simpl. by rewrite IH. Qed.

(** A star matches nothing, or one character and then again. *)
Lemma fnmatch_star_step pat name :
  Py.fnmatchcase_pat (String "*" pat) name =
  Py.fnmatchcase_pat pat name ||
  match name with
  | EmptyString => false
  | String _ name' => Py.fnmatchcase_pat (String "*" pat) name'
  end.
Proof. by destruct name. Qed.

Lemma fnmatch_star_any name : Py.fnmatchcase_pat "*" name = true.
Proof.
  induction name as [|a name IH]; [done|].
  rewrite fnmatch_star_step, IH. apply orb_true_r.
Qed.

Lemma fnmatch_star_star_any name : Py.fnmatchcase_pat "**" name = true.
Proof. by rewrite fnmatch_star_step, fnmatch_star_any. Qed.

(** A character other than the two wildcards matches itself. *)
Lemma fnmatch_literal c pat name :
  Ascii.eqb c "*" = false -> Ascii.eqb c "?" = false ->
  Py.fnmatchcase_pat (String c pat) name =
  match name with
  | EmptyString => false
  | String d name' => Ascii.eqb c d && Py.fnmatchcase_pat pat name'
  end.
Proof. intros H1 H2. destruct name; cbn -[Ascii.eqb]; by rewrite H1, H2. Qed.

Lemma fnmatch_dot_h name : Py.fnmatchcase_pat ".h" name = true <-> name = ".h".
Proof.
  split; [|by intros ->].
  rewrite fnmatch_literal by done. destruct name as [|a name]; [done|].
  intros [->%ascii_eqb_true H]%andb_prop. revert H.
  rewrite fnmatch_literal by done. destruct name as [|b name]; [done|].
  intros [->%ascii_eqb_true H]%andb_prop.
  by destruct name.
Qed.

Lemma fnmatch_star_dot_h name :
  Py.fnmatchcase_pat "*.h" name = true <-> exists stem, name = stem +:+ ".h".
Proof.
  split.
  - induction name as [|a name IH]; rewrite fnmatch_star_step.
    + intros [H%fnmatch_dot_h|?]%orb_prop; [done|done].
    + intros [H%fnmatch_dot_h|H]%orb_prop.
      * by exists "".
      * destruct (IH H) as [stem ->]. by exists (String a stem).
  - intros [stem ->]. induction stem as [|a stem IH]; [done|].
    rewrite append_cons, fnmatch_star_step, IH. apply orb_true_r.
Qed.

(** A pattern without wildcards matches itself only. *)
Lemma fnmatch_plain pat name :
  wildcard_free pat = true -> Py.fnmatchcase_pat pat name = true <-> name = pat.
Proof.
  revert name. induction pat as [|c pat IH]; intros name; simpl wildcard_free.
  { intros _. by destruct name. }
  intros [[H1%negb_true_iff H2%negb_true_iff]%andb_prop Hp]%andb_prop.
  rewrite fnmatch_literal by done.
  destruct name as [|d name]; [done|].
  rewrite andb_true_iff, ascii_eqb_true, (IH _ Hp).
  split; [by intros [-> ->]|by intros [= -> ->]].
Qed.

(** A pattern without wildcards followed by two stars matches the names
    that start with it. *)
Lemma fnmatch_plain_star_star pat name :
  wildcard_free pat = true ->
  Py.fnmatchcase_pat (pat +:+ "**") name = true <-> Py.startswith name pat = true.
Proof.
  unfold Py.startswith.
  revert name. induction pat as [|c pat IH]; intros name; simpl wildcard_free.
  { intros _. rewrite prefix_true_iff.
    change ("" +:+ "**") with "**". rewrite fnmatch_star_star_any.
    split; [by exists name|done]. }
  intros [[H1%negb_true_iff H2%negb_true_iff]%andb_prop Hp]%andb_prop.
  rewrite append_cons, fnmatch_literal by done.
  destruct name as [|d name]; [done|]. simpl.
  rewrite andb_true_iff, ascii_eqb_true, (IH _ Hp).
  destruct (ascii_dec c d); [by intuition|]. by intuition.
Qed.

End PatternFacts.

(** X5. The header pattern [*.h] of [package] selects the relative names
    that end in .h once put in lower case, so .H as well, and no other
    name. *)
Theorem header_pattern_selects_dot_h_names rel :
  Conan.selected "*.h" rel = true <->
  Py.startswith rel "/" = false /\ exists stem, Py.lower rel = stem +:+ ".h".
Proof.
  unfold Conan.selected, Py.fnmatch.
  change (Py.lower "*.h") with "*.h".
  rewrite !andb_true_iff, !negb_true_iff, fnmatch_star_dot_h. split.
  - by intros [[_ ?] ?].
  - intros [H1 [stem H2]]. split; [split|]; [|done|by exists stem].
    apply String.eqb_neq. intros ->. by destruct stem.
Qed.

(** X6. The recipe exports the relative names that, in lower case, start
    with code/ or are meson.build or meson.options, and nothing else. *)
Theorem exported_iff rel :
  exported rel = true <->
  rel <> "" /\ Py.startswith rel "/" = false /\
  (Py.startswith (Py.lower rel) "code/" = true \/
   Py.lower rel = "meson.build" \/ Py.lower rel = "meson.options").
Proof.
  unfold exported, FossilSysConan.exports_sources, Conan.selected, Py.fnmatch.
  cbn [existsb].
  change (Py.lower "code/**") with ("code/" +:+ "**").
  change (Py.lower "meson.build") with "meson.build".
  change (Py.lower "meson.options") with "meson.options".
  rewrite !orb_true_iff, !andb_true_iff, !negb_true_iff.
  rewrite fnmatch_plain_star_star, !fnmatch_plain by done.
  rewrite String.eqb_neq. intuition discriminate.
Qed.

(** ** The hooks that call the host *)

Lemma package_when_install_raises ext self w e :
  let r := ext (Conan.meson_install (Conan.Meson self)) (Conan.cwd w) (Conan.fs w) in
  r.2 = Some e ->
  FossilSysConan.package ext self w =
  Conan.Raised e
    {| Conan.cwd := Conan.cwd w; Conan.fs := r.1;
       Conan.trace := Conan.trace w ++
         [{| Conan.ev_call := Conan.meson_install (Conan.Meson self);
             Conan.ev_fs := Conan.fs w; Conan.ev_ok := false |}] |}.
Proof.
  intros r Hr.
  unfold FossilSysConan.package, mbind, Conan.M_bind, Conan.this, Conan.call at 1.
  simpl. fold r. by rewrite Hr.
Qed.

(** [package] is the install call and, when that returns, the copy. *)
Lemma package_after_install ext self w :
  let r := ext (Conan.meson_install (Conan.Meson self)) (Conan.cwd w) (Conan.fs w) in
  r.2 = None ->
  FossilSysConan.package ext self w =
  FossilSysConan.package_copy ext self
    {| Conan.cwd := Conan.cwd w; Conan.fs := r.1;
       Conan.trace := Conan.trace w ++
         [{| Conan.ev_call := Conan.meson_install (Conan.Meson self);
             Conan.ev_fs := Conan.fs w; Conan.ev_ok := true |}] |}.
Proof.
  intros r Hr.
  unfold FossilSysConan.package, mbind, Conan.M_bind, Conan.this, Conan.call at 1.
  simpl. fold r. by rewrite Hr.
Qed.

(** The calls of a call made after another one. *)
Lemma issued_after ext c self w0 ev w :
  Conan.trace w = Conan.trace w0 ++ [ev] ->
  issued w0 (Conan.call ext c self w) = [Conan.ev_call ev; c].
Proof.
  intros Ht. unfold issued, Conan.call.
  destruct (Conan.effect ext c (Conan.cwd w) (Conan.fs w)).2; simpl;
    by rewrite Ht, <- app_assoc, drop_app_length.
Qed.

Lemma package_first_call ext self w :
  exists rest,
    issued w (FossilSysConan.package ext self w) =
    Conan.meson_install (Conan.Meson self) :: rest.
Proof.
  destruct (ext (Conan.meson_install (Conan.Meson self)) (Conan.cwd w) (Conan.fs w)).2
    as [e|] eqn:Hr.
  - rewrite (package_when_install_raises ext self w e) by done.
    exists []. unfold issued. simpl. by rewrite drop_app_length.
  - rewrite package_after_install by done. rewrite package_copy_is_call.
    eexists.
    by apply (issued_after ext _ self w
                {| Conan.ev_call := Conan.meson_install (Conan.Meson self);
                   Conan.ev_fs := Conan.fs w; Conan.ev_ok := true |}).
Qed.

Lemma build_first_call ext self w :
  exists rest,
    issued w (FossilSysConan.build ext self w) =
    Conan.meson_configure (Conan.Meson self) :: rest.
Proof.
  unfold FossilSysConan.build, issued, Conan.call, mbind, Conan.M_bind, Conan.this.
  simpl.
  destruct (ext (Conan.meson_configure (Conan.Meson self)) (Conan.cwd w) (Conan.fs w)).2; simpl.
  - exists []. by rewrite drop_app_length.
  - destruct (ext (Conan.meson_build (Conan.Meson self)) _ _).2; simpl;
      eexists; by rewrite <- app_assoc, drop_app_length.
Qed.

(** X1. [package] makes the install call first.  When it raises,
    [package] raises, the copy is not made and the files are as the
    install left them; when it returns, the copy is made on the files the
    install left, and [package] returns when the copy returns and raises
    when the copy raises. *)
Theorem package_installs_then_copies ext self w :
  let r := ext (Conan.meson_install (Conan.Meson self)) (Conan.cwd w) (Conan.fs w) in
  let dst := Py.os_path_join (Conan.package_folder self) ["include"; "fossil"; "sys"] in
  let c := Conan.copy_model "*.h" "code/logic/fossil/sys" dst (Conan.cwd w) r.1 in
  issued w (FossilSysConan.package ext self w) =
    Conan.meson_install (Conan.Meson self) ::
      (if r.2 is None then [Conan.copy self "*.h" "code/logic/fossil/sys" dst] else []) /\
  returned (FossilSysConan.package ext self w) =
    bool_decide (r.2 = None) && bool_decide (c.2 = None) /\
  Conan.fs (world_of (FossilSysConan.package ext self w)) =
    (if r.2 is None then c.1 else r.1).
Proof.
  intros r dst c.
  destruct r.2 as [e|] eqn:Hr.
  - rewrite (package_when_install_raises ext self w e) by done. fold r.
    unfold issued. simpl. by rewrite drop_app_length.
  - rewrite package_after_install by done. fold r.
    rewrite package_copy_is_call, returned_call, fs_call.
    split; [|done].
    by apply (issued_after ext _ self w
                {| Conan.ev_call := Conan.meson_install (Conan.Meson self);
                   Conan.ev_fs := Conan.fs w; Conan.ev_ok := true |}).
Qed.

(** X8. [build] returns exactly when the configure call and then the
    build call return; the build call finds the files the configure call
    left, and the files after [build] are the ones the last call made
    left. *)
Theorem build_runs_on_configured_files ext self w :
  let m := Conan.Meson self in
  let c := ext (Conan.meson_configure m) (Conan.cwd w) (Conan.fs w) in
  let b := ext (Conan.meson_build m) (Conan.cwd w) c.1 in
  returned (FossilSysConan.build ext self w) =
    bool_decide (c.2 = None) && bool_decide (b.2 = None) /\
  Conan.fs (world_of (FossilSysConan.build ext self w)) =
    (if c.2 is None then b.1 else c.1).
Proof.
  intros m c b.
  unfold FossilSysConan.build, Conan.call, mbind, Conan.M_bind, Conan.this.
  simpl. fold m. fold c.
  destruct c.2; [done|]. simpl. fold b.
  by destruct b.2.
Qed.

(** ** The class body *)

(** X9. No name of the class resolves to the first definition of
    [source]: the shallow clone of line 38 cannot be reached through the
    class. *)
Theorem first_source_is_unreachable ext attr :
  FossilSysConan.getattr ext attr <> Some (FossilSysConan.source_38 ext).
Proof.
  pose (calls := fun h : Conan.M unit => issued empty_world (h self0 empty_world)).
  assert (exists cmd, calls (FossilSysConan.source_38 ext) = [Conan.run cmd]
            /\ Py.contains "--depth" cmd = true) as (cmd & E38 & Hd).
  { eexists. split; [apply issued_call|reflexivity]. }
  assert (forall h, calls h <> [Conan.run cmd] ->
            Some h <> Some (FossilSysConan.source_38 ext)) as D.
  { intros h Hh [= ->]. by rewrite E38 in Hh. }
  unfold FossilSysConan.getattr, FossilSysConan.class_body. cbn [fold_left fst snd].
  destruct (String.eqb "source" attr).
  { apply D. unfold calls, FossilSysConan.source_56. rewrite issued_call.
    intros [= <-]. done. }
  destruct (String.eqb "package_info" attr); [by apply D|].
  destruct (String.eqb "package" attr).
  { apply D. unfold calls.
    destruct (package_first_call ext self0 empty_world) as [rest ->]. done. }
  destruct (String.eqb "build" attr).
  { apply D. unfold calls.
    destruct (build_first_call ext self0 empty_world) as [rest ->]. done. }
  destruct (String.eqb "generate" attr).
  { apply D. unfold calls.
    change (FossilSysConan.generate ext self0 empty_world)
      with (Conan.call ext (Conan.tc_generate (Conan.MesonToolchain self0)) self0 empty_world).
    by rewrite issued_call. }
  destruct (String.eqb "layout" attr); [by apply D|done].
Qed.

(** ** The destination of the copy *)



(** ** The hooks that assign attributes *)

(** X11. [layout] and [package_info] assign different attributes: run in
    either order, and any of them a second time, they leave the same
    recipe object, with the folders and the consumer information of the
    recipe whatever these were before, and with the settings, the options
    and the package folder it had. *)
Theorem layout_and_package_info_commute self w :
  let both := (FossilSysConan.layout;; FossilSysConan.package_info) in
  (FossilSysConan.package_info;; FossilSysConan.layout) self w = both self w /\
  (FossilSysConan.layout;; both) self w = both self w /\
  (both;; FossilSysConan.package_info) self w = both self w /\
  both self w =
    Conan.Ok tt
      {| Conan.settings := Conan.settings self;
         Conan.options := Conan.options self;
         Conan.folders := {| Conan.source := "."; Conan.build := "builddir" |};
         Conan.cpp_info := {| Conan.libs := ["fossil_sys"]; Conan.includedirs := ["include"] |};
         Conan.package_folder := Conan.package_folder self |} w.
Proof. done. Qed.

(** X12. The copy of [package] uses the recipe object for its package
    folder only: two recipe objects with the same package folder, whatever
    their settings, options, folders and consumer information, get the
    same files from it. *)
Theorem package_copy_depends_on_package_folder_only ext self1 self2 w :
  Conan.package_folder self1 = Conan.package_folder self2 ->
  Conan.fs (world_of (FossilSysConan.package_copy ext self1 w)) =
  Conan.fs (world_of (FossilSysConan.package_copy ext self2 w)).
Proof. intros H. by apply package_copy_reads. Qed.

Lemma package_copy_depends_on_package_folder_witness :
  Conan.fs (world_of (FossilSysConan.package_copy quiet_tools laid_out tree_world)) =
  Conan.fs (world_of (FossilSysConan.package_copy quiet_tools
                        (fresh windows_msvc {| Conan.shared := true |} "/pkg") tree_world)).
Proof.
  by apply (package_copy_depends_on_package_folder_only quiet_tools laid_out
              (fresh windows_msvc {| Conan.shared := true |} "/pkg") tree_world).
Defined.

(** ** What the copy of package writes *)

(** X2. In a well-formed world and with a package folder that is a path
    from the root, the copy of [package] leaves every path outside the
    normalised destination directory as it was, whether it returns or
    raises: the same file, or no file as before. *)
Theorem package_copy_keeps_paths_outside_destination ext self w p :
  well_formed_world w = true ->
  rooted (Conan.package_folder self) = true ->
  Py.startswith p (destination self w) = false ->
  Conan.fs (world_of (FossilSysConan.package_copy ext self w)) !! p = Conan.fs w !! p.
Proof. intros [_ Hwf]%andb_prop Habs%rooted_absolute Hp. by apply package_copy_frame. Qed.

Lemma package_copy_keeps_paths_witness :
  Conan.fs (world_of (FossilSysConan.package_copy quiet_tools laid_out tree_world))
    !! "/work/code/logic/fossil/sys/hostinfo.c" =
  Some {| Conan.content := "int fossil_sys_hostinfo;"; Conan.mtime := 3 |}.
Proof.
  rewrite (package_copy_keeps_paths_outside_destination quiet_tools laid_out tree_world
             "/work/code/logic/fossil/sys/hostinfo.c"); reflexivity.
Defined.

(** X3. In a well-formed world, with a package folder that is a path
    from the root and with the header directory and the destination not
    inside one another, every file found after the copy of [package] was
    there before, or is a file of the header directory whose name matches
    [*.h], written below the destination at its relative name or, where
    that is a directory, at its last name inside that directory: nothing
    else is written, and a file of the header directory with another name
    is not copied. *)
Theorem package_copy_writes_only_headers ext self w p f :
  well_formed_world w = true ->
  rooted (Conan.package_folder self) = true ->
  apart (headers_dir w) (destination self w) ->
  Conan.fs (world_of (FossilSysConan.package_copy ext self w)) !! p = Some f ->
  Conan.fs w !! p = Some f \/
  exists rel z, Conan.selected "*.h" rel = true /\
    Conan.fs w !! (headers_dir w +:+ rel) = Some f /\
    places rel z /\ p = destination self w +:+ z.
Proof. intros [_ Hwf]%andb_prop Habs%rooted_absolute Hap Hp. by apply (package_copy_only ext). Qed.

Lemma package_copy_writes_only_headers_witness :
  Conan.fs tree_world !! "/pkg/include/fossil/sys/hostinfo.h" = Some header \/
  exists rel z, Conan.selected "*.h" rel = true /\
    Conan.fs tree_world !! (headers_dir tree_world +:+ rel) = Some header /\
    places rel z /\
    "/pkg/include/fossil/sys/hostinfo.h" = destination laid_out tree_world +:+ z.
Proof.
  apply (package_copy_writes_only_headers quiet_tools laid_out tree_world).
  - vm_compute. reflexivity.
  - reflexivity.
  - split; vm_compute; reflexivity.
  - vm_compute. reflexivity.
Defined.



(** X13. Under the same conditions, after a copy of [package] that
    returned, every file of the header directory whose name matches [*.h]
    has a file below the destination, at its relative name or, where that
    is a directory, at its last name inside that directory; that file has
    the content of the header, or it was there before with the size and
    the modification time of the header and [copy] left it. *)
Theorem package_copy_delivers_headers ext self w rel f :
  well_formed_world w = true ->
  rooted (Conan.package_folder self) = true ->
  apart (headers_dir w) (destination self w) ->
  returned (FossilSysConan.package_copy ext self w) = true ->
  Conan.selected "*.h" rel = true ->
  Conan.fs w !! (headers_dir w +:+ rel) = Some f ->
  exists z g, places rel z /\
    Conan.fs (world_of (FossilSysConan.package_copy ext self w))
      !! (destination self w +:+ z) = Some g /\
    Conan.same_file f g = true.
Proof. intros [_ Hwf]%andb_prop Habs%rooted_absolute Hap Hret Hs Hf. by apply package_copy_delivers. Qed.

Lemma package_copy_delivers_headers_witness :
  exists z g, places "hostinfo.h" z /\
    Conan.fs (world_of (FossilSysConan.package_copy quiet_tools laid_out tree_world))
      !! (destination laid_out tree_world +:+ z) = Some g /\
    Conan.same_file header g = true.
Proof.
  apply (package_copy_delivers_headers quiet_tools laid_out tree_world "hostinfo.h" header).
  - vm_compute. reflexivity.
  - reflexivity.
  - split; vm_compute; reflexivity.
  - vm_compute. reflexivity.
  - reflexivity.
  - vm_compute. reflexivity.
Defined.
